(** * memetracker_n4j: the txt-to-JSON converter of [src/data_cleaner/txt_to_json.py]

    A shallow embedding of the record parser ([process_txt_file_line]), the
    per-file conversion loop ([convert_txt_file_to_json]) and the directory
    driver ([convert_txt_files_from_directory]), followed by the properties
    of the specification that concern them. *)

From Stdlib Require Import ZArith NArith Lia.
From Stdlib Require Import Strings.String Strings.Ascii.
From stdpp Require Import gmap list.

Local Open Scope list_scope.
Local Open Scope Z_scope.

(** ** Python [str] values

    A Python [str] is a sequence of Unicode code points; a code point is
    kept as its number.  [py] turns an ASCII literal into such a sequence. *)

Abbreviation char := N (only parsing).
Abbreviation str := (list N) (only parsing).

Definition py (s : string) : str := N_of_ascii <$> list_ascii_of_string s.

Definition TAB : char := 9%N.
Definition LF : char := 10%N.
Definition SPACE : char := 32%N.

(** [str.isspace] on one code point, the test [str.strip()] applies:
    U+0009..U+000D, U+001C..U+0020, U+0085, U+00A0, U+1680, U+2000..U+200A,
    U+2028, U+2029, U+202F, U+205F and U+3000. *)
Definition isspace (c : char) : bool :=
  ((9 <=? c) && (c <=? 13) || (28 <=? c) && (c <=? 32)
   || (c =? 133) || (c =? 160) || (c =? 5760)
   || (8192 <=? c) && (c <=? 8202)
   || (c =? 8232) || (c =? 8233) || (c =? 8239) || (c =? 8287)
   || (c =? 12288))%N.

(** [s.lstrip()], [s.rstrip()] and [s.strip()] with no argument. *)
Fixpoint lstrip (s : str) : str :=
  match s with
  | c :: s' => if isspace c then lstrip s' else s
  | [] => []
  end.

Definition rstrip (s : str) : str := reverse (lstrip (reverse s)).

Definition strip (s : str) : str := rstrip (lstrip s).

(** [s.split(sep)] for a one-character separator: the pieces between the
    occurrences of [sep], in order; always at least one piece. *)
Fixpoint split (sep : char) (s : str) : list str :=
  match s with
  | [] => [[]]
  | c :: s' =>
      if (c =? sep)%N then [] :: split sep s'
      else match split sep s' with
           | piece :: pieces => (c :: piece) :: pieces
           | [] => [[c]]
           end
  end.

(** [s.startswith(t)] *)
Fixpoint startswith (s t : str) {struct t} : bool :=
  match t, s with
  | [], _ => true
  | _ :: _, [] => false
  | b :: t', a :: s' => (a =? b)%N && startswith s' t'
  end.

(** [s.endswith(t)] *)
Definition endswith (s t : str) : bool := startswith (reverse s) (reverse t).

(** [s.replace(old, new)]: every occurrence of [old], found left to right
    without overlap, becomes [new]; an empty [old] matches before every
    character and at the end.  [skip] counts the characters of a match
    still to be passed over. *)
Fixpoint replace_from (old new : str) (skip : nat) (s : str) : str :=
  match s with
  | [] => []
  | c :: s' =>
      match skip with
      | S k => replace_from old new k s'
      | O => if startswith s old
             then new ++ replace_from old new (length old - 1) s'
             else c :: replace_from old new 0 s'
      end
  end.

Definition replace (s old new : str) : str :=
  match old with
  | [] => new ++ flat_map (fun c => c :: new) s
  | _ :: _ => replace_from old new 0 s
  end.

(** ** The record under construction

    [construct_meme_data_tracker_dict] returns a dictionary with the four
    keys ['P'], ['T'], ['Q'] and ['L']; no key is ever added or removed, so
    it is a record with one field per key. *)

Record meme_data_tracker := {
  tracker_P : str;
  tracker_T : str;
  tracker_Q : list str;
  tracker_L : list str
}.

Definition construct_meme_data_tracker_dict : meme_data_tracker :=
  {| tracker_P := []; tracker_T := []; tracker_Q := []; tracker_L := [] |}.

(** [d[key] = v] and [d[key].append(v)].  The program reaches the first
    only with [key] in [['P', 'T']] and the second only with [key] in
    [['Q', 'L']]; the last branch of each stands for the keys it never uses. *)
Definition str_eqb (a b : str) : bool := bool_decide (a = b).

Definition set_item (d : meme_data_tracker) (key : str) (v : str) : meme_data_tracker :=
  if str_eqb key (py "P") then
    {| tracker_P := v; tracker_T := tracker_T d;
       tracker_Q := tracker_Q d; tracker_L := tracker_L d |}
  else if str_eqb key (py "T") then
    {| tracker_P := tracker_P d; tracker_T := v;
       tracker_Q := tracker_Q d; tracker_L := tracker_L d |}
  else d.

Definition append_item (d : meme_data_tracker) (key : str) (v : str) : meme_data_tracker :=
  if str_eqb key (py "Q") then
    {| tracker_P := tracker_P d; tracker_T := tracker_T d;
       tracker_Q := tracker_Q d ++ [v]; tracker_L := tracker_L d |}
  else if str_eqb key (py "L") then
    {| tracker_P := tracker_P d; tracker_T := tracker_T d;
       tracker_Q := tracker_Q d; tracker_L := tracker_L d ++ [v] |}
  else d.

(** [x in [a, b]] *)
Definition in_list (x : str) (l : list str) : bool := bool_decide (x ∈ l).

(** ** [process_txt_file_line]

    The standard output is threaded as the list of the lines printed so
    far.  The unpacking [[content_identifier, line_content] = ...] raises
    [ValueError] unless the split has exactly two pieces; the handler
    returns [False]. *)
Definition process_txt_file_line (file_line : str) (individual_meme_data_dict : meme_data_tracker)
    (stdout : list str) : bool * meme_data_tracker * list str :=
  let file_line := strip file_line in
  match split TAB file_line with
  | [content_identifier; line_content] =>
      if in_list content_identifier [py "P"; py "T"] then
        (true, set_item individual_meme_data_dict content_identifier line_content, stdout)
      else if in_list content_identifier [py "Q"; py "L"] then
        (true, append_item individual_meme_data_dict content_identifier line_content, stdout)
      else
        (true, individual_meme_data_dict,
         stdout ++ [py "Invalid line encountered in the file: " ++ file_line])
  | _ => (false, individual_meme_data_dict, stdout)
  end.

(** ** The output document

    [output_json_file_data] maps a url to the record stored under it.  The
    order of the keys of the Python dictionary decides only the order of the
    members in the JSON text and is not kept. *)

Record meme_record := {
  url : str;
  id_num : Z;
  timestamp : str;
  phrases : list str;
  links : list str
}.

Definition add_data_to_json_file_data_dict (individual_meme_data_dict : meme_data_tracker)
    (output_json_file_data : gmap str meme_record) (meme_record_id : Z)
    : gmap str meme_record :=
  let '(url, timestamp, phrases, links) :=
    (tracker_P individual_meme_data_dict, tracker_T individual_meme_data_dict,
     tracker_Q individual_meme_data_dict, tracker_L individual_meme_data_dict) in
  <[ url := {| url := url; id_num := meme_record_id; timestamp := timestamp;
               phrases := phrases; links := links |} ]> output_json_file_data.

(** ** Reading a text file

    Iterating over a file opened with [encoding='utf-8'] yields a line at
    each step or raises [UnicodeDecodeError]; the end of the list is the end
    of the file. *)

Inductive read_result :=
  | Yield (file_line : str)
  | RaiseUnicodeDecodeError.

#[global] Instance read_result_eq_dec : EqDecision read_result.
Proof. solve_decision. Defined.

(** The variables of the [for] loop of [convert_txt_file_to_json], and the
    lines printed so far. *)
Module St.
Record t := {
  output_json_file_data : gmap str meme_record;
  individual_meme_data_dict : meme_data_tracker;
  meme_record_id : Z;
  printed : list str
}.
End St.

(** The [try: for file_line in txt_file: ... except UnicodeDecodeError: ...]
    statement.  The handler is outside the loop: an error raised by the
    iteration ends the loop.  The lists held by a completed record are not
    appended to afterwards, since the tracker is replaced by a new
    dictionary with new lists. *)
Fixpoint for_file_line_in (txt_file : list read_result) (st : St.t) : St.t :=
  match txt_file with
  | [] => st
  | RaiseUnicodeDecodeError :: _ =>
      {| St.output_json_file_data := St.output_json_file_data st;
         St.individual_meme_data_dict := St.individual_meme_data_dict st;
         St.meme_record_id := St.meme_record_id st;
         St.printed :=
           St.printed st ++ [py "Unicode Decode Error. Character Mapped to undefined"] |}
  | Yield file_line :: txt_file' =>
      let '(continues, d, out) :=
        process_txt_file_line file_line (St.individual_meme_data_dict st) (St.printed st) in
      if negb continues then
        for_file_line_in txt_file'
          {| St.output_json_file_data :=
               add_data_to_json_file_data_dict d (St.output_json_file_data st)
                 (St.meme_record_id st);
             St.individual_meme_data_dict := construct_meme_data_tracker_dict;
             St.meme_record_id := St.meme_record_id st + 1;
             St.printed := out |}
      else
        for_file_line_in txt_file'
          {| St.output_json_file_data := St.output_json_file_data st;
             St.individual_meme_data_dict := d;
             St.meme_record_id := St.meme_record_id st;
             St.printed := out |}
  end.

(** ** The file system and the collaborators

    Several paths can name one file ([in/one.txt] and [./in/one.txt], a
    link and its target), so the files and the directories of a world are
    kept under their identity, not under a path: [files] maps the identity
    of a file to the sequence of results that reading it as text yields,
    and [dirs] is the set of the identities of the directories.  Opening a
    file for writing and writing to it are taken to succeed. *)

Record world := {
  files : gmap str (list read_result);
  dirs : gset str;
  stdout : list str
}.

(** What the program takes from outside: [file_id], the identity of the
    file or directory that a path names (two paths name the same one
    exactly when [os.path.samefile] holds of them); the text [json.dump]
    writes for a document (with [indent=4] and [ensure_ascii=False]);
    [os.makedirs] ([None] when it raises [FileNotFoundError]); the names
    [glob.glob] finds for a pattern in a directory. *)
Class Collaborators := {
  file_id : str -> str;
  json_dump : gmap str meme_record -> list read_result;
  makedirs : str -> world -> option world;
  glob : str -> str -> world -> list str
}.

Definition print (line : str) (w : world) : world :=
  {| files := files w; dirs := dirs w; stdout := stdout w ++ [line] |}.

Definition exist_directory {collaborators : Collaborators} (directory_path : str) (w : world) : bool :=
  bool_decide (file_id directory_path ∈ dirs w).

Definition exist_file {collaborators : Collaborators} (file_path : str) (w : world) : bool :=
  bool_decide (is_Some (files w !! file_id file_path)).

(** [os.path.join(a, b)] of [posixpath]. *)
Definition path_join (a b : str) : str :=
  if startswith b (py "/") then b
  else if bool_decide (a = []) || endswith a (py "/") then a ++ b
  else a ++ py "/" ++ b.

(** [open(path, 'w')]: the file that [path] names exists and is empty
    afterwards. *)
Definition open_w {collaborators : Collaborators} (path : str) (w : world) : world :=
  {| files := <[ file_id path := [] ]> (files w); dirs := dirs w; stdout := stdout w |}.

(** [open(path, encoding='utf-8')] on an existing file, iterated. *)
Definition open_r {collaborators : Collaborators} (path : str) (w : world) : list read_result :=
  default [] (files w !! file_id path).

(** The state in which [convert_txt_file_to_json] enters its loop. *)
Definition initial_state (meme_record_id : Z) (printed : list str) : St.t :=
  {| St.output_json_file_data := ∅;
     St.individual_meme_data_dict := construct_meme_data_tracker_dict;
     St.meme_record_id := meme_record_id;
     St.printed := printed |}.

(** The record that [add_data_to_json_file_data_dict] builds from the
    tracker, and a document after a sequence of such additions. *)
Definition record_of (d : meme_data_tracker) (meme_record_id : Z) : meme_record :=
  {| url := tracker_P d; id_num := meme_record_id; timestamp := tracker_T d;
     phrases := tracker_Q d; links := tracker_L d |}.

Definition store (data : gmap str meme_record) (records : list meme_record)
    : gmap str meme_record :=
  foldl (fun m r => <[ url r := r ]> m) data records.

(** The history of the loop: the records handed to
    [add_data_to_json_file_data_dict], in the order of the calls, for a
    file read from the tracker [d] and the counter [id]. *)
Fixpoint records_completed (txt_file : list read_result) (d : meme_data_tracker) (id : Z)
    : list meme_record :=
  match txt_file with
  | [] => []
  | RaiseUnicodeDecodeError :: _ => []
  | Yield file_line :: txt_file' =>
      let '(continues, d', _) := process_txt_file_line file_line d [] in
      if negb continues then
        record_of d' id
          :: records_completed txt_file' construct_meme_data_tracker_dict (id + 1)
      else records_completed txt_file' d' id
  end.

Section Program.
Context {collaborators : Collaborators}.

Definition write_to_json_file (output_json_file_path : str)
    (output_json_file_data : gmap str meme_record) (w : world) : world :=
  {| files := <[ file_id output_json_file_path := json_dump output_json_file_data ]>
                (files w);
     dirs := dirs w; stdout := stdout w |}.

(** The name of the output file (line 238). *)
Definition output_json_file_name (input_txt_file_name input_txt_file_extension : str) : str :=
  replace input_txt_file_name input_txt_file_extension (py ".json").

Definition convert_txt_file_to_json (input_file_directory_path input_txt_file_name
    input_txt_file_extension output_json_directory_path : str) (meme_record_id : Z)
    (w : world) : Z * world :=
  let input_txt_file_path := path_join input_file_directory_path input_txt_file_name in
  if negb (exist_file input_txt_file_path w) then
    (meme_record_id,
     print (py "The path to the given input txt file is invalid. File Path: "
            ++ input_txt_file_path) w)
  else
    let output_json_file_name :=
      output_json_file_name input_txt_file_name input_txt_file_extension in
    let output_json_file_path := path_join output_json_directory_path output_json_file_name in
    let w := open_w output_json_file_path w in
    let st := for_file_line_in (open_r input_txt_file_path w)
                (initial_state meme_record_id (stdout w)) in
    let w := {| files := files w; dirs := dirs w; stdout := St.printed st |} in
    (St.meme_record_id st,
     write_to_json_file output_json_file_path (St.output_json_file_data st) w).

Definition get_file_names (directory_path file_extension : str) (w : world)
    : list str * world :=
  if negb (exist_directory directory_path w) then
    ([], print (py "The given directory path is invalid. Given: " ++ directory_path) w)
  else
    (glob directory_path (py "*" ++ file_extension) w, w).

(** The [for input_file_name in input_file_names] loop. *)
Fixpoint for_input_file_name_in (input_file_names : list str) (input_directory_path
    file_extension output_json_directory_path : str) (record_id : Z) (w : world)
    : Z * world :=
  match input_file_names with
  | [] => (record_id, w)
  | input_file_name :: rest =>
      let '(record_id, w) :=
        convert_txt_file_to_json input_directory_path input_file_name file_extension
          output_json_directory_path record_id w in
      for_input_file_name_in rest input_directory_path file_extension
        output_json_directory_path record_id w
  end.

(** The names to convert (line 306) and the loop over them from 0. *)
Definition convert_listed_files (input_directory_path file_extension
    output_json_directory_path : str) (file_names_list : list str) (w : world) : world :=
  let '(input_file_names, w) :=
    match file_names_list with
    | _ :: _ => (file_names_list, w)
    | [] => get_file_names input_directory_path file_extension w
    end in
  (for_input_file_name_in input_file_names input_directory_path file_extension
     output_json_directory_path 0 w).2.

Definition convert_txt_files_from_directory (input_directory_path file_extension
    output_json_directory_path : str) (file_names_list : list str) (w : world) : world :=
  if negb (exist_directory input_directory_path w) then
    print (py "The given directory path for the input " ++ file_extension
           ++ py " files is invalid. Given " ++ input_directory_path) w
  else if negb (exist_directory output_json_directory_path w) then
    match makedirs output_json_directory_path w with
    | None =>
        print (py "Invalid path to the JSON files Output directory. Given "
               ++ output_json_directory_path) w
    | Some w =>
        convert_listed_files input_directory_path file_extension
          output_json_directory_path file_names_list w
    end
  else
    convert_listed_files input_directory_path file_extension
      output_json_directory_path file_names_list w.

(** The history of one call of [convert_txt_file_to_json] and of the loop
    over the files: the records completed, in the order of completion. *)
Definition file_records_completed (input_file_directory_path input_txt_file_name
    input_txt_file_extension output_json_directory_path : str) (meme_record_id : Z)
    (w : world) : list meme_record :=
  let input_txt_file_path := path_join input_file_directory_path input_txt_file_name in
  if negb (exist_file input_txt_file_path w) then []
  else
    let output_json_file_path :=
      path_join output_json_directory_path
        (output_json_file_name input_txt_file_name input_txt_file_extension) in
    records_completed (open_r input_txt_file_path (open_w output_json_file_path w))
      construct_meme_data_tracker_dict meme_record_id.

Fixpoint batch_records_completed (input_file_names : list str) (input_directory_path
    file_extension output_json_directory_path : str) (record_id : Z) (w : world)
    : list meme_record :=
  match input_file_names with
  | [] => []
  | input_file_name :: rest =>
      file_records_completed input_directory_path input_file_name file_extension
        output_json_directory_path record_id w
      ++ (let '(record_id, w) :=
            convert_txt_file_to_json input_directory_path input_file_name file_extension
              output_json_directory_path record_id w in
          batch_records_completed rest input_directory_path file_extension
            output_json_directory_path record_id w)
  end.

Definition records_of_listed_files (input_directory_path file_extension
    output_json_directory_path : str) (file_names_list : list str) (w : world)
    : list meme_record :=
  let '(input_file_names, w) :=
    match file_names_list with
    | _ :: _ => (file_names_list, w)
    | [] => get_file_names input_directory_path file_extension w
    end in
  batch_records_completed input_file_names input_directory_path file_extension
    output_json_directory_path 0 w.

(** The history of one run of [convert_txt_files_from_directory]. *)
Definition records_of_run (input_directory_path file_extension
    output_json_directory_path : str) (file_names_list : list str) (w : world)
    : list meme_record :=
  if negb (exist_directory input_directory_path w) then []
  else if negb (exist_directory output_json_directory_path w) then
    match makedirs output_json_directory_path w with
    | None => []
    | Some w =>
        records_of_listed_files input_directory_path file_extension
          output_json_directory_path file_names_list w
    end
  else
    records_of_listed_files input_directory_path file_extension
      output_json_directory_path file_names_list w.

End Program.

(** ** Notions of the specification

    A line has two parts when the unpacking of line 196 succeeds; any other
    line is a boundary line. *)
Definition two_parts (file_line : str) : bool :=
  bool_decide (length (split TAB (strip file_line)) = 2%nat).

(** The tag and the content of a line with two parts. *)
Definition parts (file_line : str) : option (str * str) :=
  match split TAB (strip file_line) with
  | [content_identifier; line_content] => Some (content_identifier, line_content)
  | _ => None
  end.

(** The contents of the lines that carry the tag [tag], in the order of the
    lines, and the content of the last of them (the empty string of a reset
    tracker when there is none). *)
Definition contents_tagged (tag : str) (file_lines : list str) : list str :=
  omap (fun file_line =>
          match parts file_line with
          | Some (t, c) => if bool_decide (t = tag) then Some c else None
          | None => None
          end) file_lines.

Definition last_content (tag : str) (file_lines : list str) : str :=
  default [] (last (contents_tagged tag file_lines)).

(** The tracker after the lines [file_lines], all with two parts. *)
Definition tracker_after (d : meme_data_tracker) (file_lines : list str) : meme_data_tracker :=
  {| tracker_P := default (tracker_P d) (last (contents_tagged (py "P") file_lines));
     tracker_T := default (tracker_T d) (last (contents_tagged (py "T") file_lines));
     tracker_Q := tracker_Q d ++ contents_tagged (py "Q") file_lines;
     tracker_L := tracker_L d ++ contents_tagged (py "L") file_lines |}.

(** The lines that remain when each failing read is skipped and the reading
    goes on, as the specification describes a decoding failure. *)
Definition skip_undecodable (txt_file : list read_result) : list read_result :=
  filter (fun r => r ≠ RaiseUnicodeDecodeError) txt_file.

(** The state after the handler of [UnicodeDecodeError] has printed. *)
Definition warned (st : St.t) : St.t :=
  {| St.output_json_file_data := St.output_json_file_data st;
     St.individual_meme_data_dict := St.individual_meme_data_dict st;
     St.meme_record_id := St.meme_record_id st;
     St.printed :=
       St.printed st ++ [py "Unicode Decode Error. Character Mapped to undefined"] |}.

(** The state after a boundary line: the tracker is stored under its url
    with the current id, the tracker is reset and the counter moves on. *)
Definition flushed (st : St.t) : St.t :=
  {| St.output_json_file_data :=
       add_data_to_json_file_data_dict (St.individual_meme_data_dict st)
         (St.output_json_file_data st) (St.meme_record_id st);
     St.individual_meme_data_dict := construct_meme_data_tracker_dict;
     St.meme_record_id := St.meme_record_id st + 1;
     St.printed := St.printed st |}.

(** A file of boundary-delimited records: each record is its field lines,
    all with two parts, followed by one boundary line. *)
Definition record_lines (block : list str * str) : list read_result :=
  Yield <$> (block.1 ++ [block.2]).

Definition file_of_records (blocks : list (list str * str)) : list read_result :=
  concat (record_lines <$> blocks).

Definition well_delimited (block : list str * str) : Prop :=
  Forall (fun file_line => two_parts file_line = true) block.1
  ∧ two_parts block.2 = false.

(** The record that the field lines [fields] describe, and the records of a
    file of boundary-delimited records numbered from [id]. *)
Definition record_described (fields : list str) (id : Z) : meme_record :=
  {| url := last_content (py "P") fields; id_num := id;
     timestamp := last_content (py "T") fields;
     phrases := contents_tagged (py "Q") fields;
     links := contents_tagged (py "L") fields |}.

Fixpoint records_described (blocks : list (list str * str)) (id : Z) : list meme_record :=
  match blocks with
  | [] => []
  | block :: blocks' => record_described block.1 id :: records_described blocks' (id + 1)
  end.

(** ** Further notions

    A line with two parts whose tag is none of the four: line 204 prints it
    and the function goes on. *)
Definition unrecognised (file_line : str) : bool :=
  match parts file_line with
  | Some (content_identifier, _) =>
      negb (in_list content_identifier [py "P"; py "T"; py "Q"; py "L"])
  | None => false
  end.

Definition invalid_line_message (file_line : str) : str :=
  py "Invalid line encountered in the file: " ++ strip file_line.

(** The number of the tab characters of a string. *)
Definition count_tabs (s : str) : nat := length (filter (fun c => c = TAB) s).

(** The number of the boundary lines read, up to the first failing read. *)
Fixpoint boundaries_read (txt_file : list read_result) : nat :=
  match txt_file with
  | [] => 0
  | RaiseUnicodeDecodeError :: _ => 0
  | Yield file_line :: txt_file' =>
      if two_parts file_line then boundaries_read txt_file'
      else S (boundaries_read txt_file')
  end.

(** The path of the output file of an input file name. *)
Definition output_path (output_json_directory_path input_txt_file_name
    input_txt_file_extension : str) : str :=
  path_join output_json_directory_path
    (output_json_file_name input_txt_file_name input_txt_file_extension).

(** [old in s]: [old] occurs somewhere in [s]. *)
Definition occurs_in (old s : str) : bool :=
  existsb (fun i => startswith (drop i s) old) (seq 0 (S (length s))).

(** Two worlds with the same files and directories; what has been printed
    may differ. *)
Definition same_files (w1 w2 : world) : Prop :=
  files w1 = files w2 ∧ dirs w1 = dirs w2.

(** [main] (lines 317-318): the file list is left at its default. *)
Definition main `{Collaborators} (w : world) : world :=
  convert_txt_files_from_directory (py "../../data/sample_file") (py ".txt")
    (py "../../data/sample_output") [] w.

(** ** Inputs for the examples *)

(** The line [tag<TAB>content<LF>] and the empty line. *)
Definition line (tag content : string) : str := py tag ++ TAB :: py content ++ [LF].
Definition blank : str := [LF].

(** In the examples a path that starts with [./] names what the rest of
    the path names, and every other path names a file of its own. *)
Definition example_file_id (path : str) : str :=
  if startswith path (py "./") then drop 2 path else path.

(** Collaborators for the examples: the text of a document is one line per
    url, a directory can always be made, and the listing finds nothing. *)
Definition example_collaborators : Collaborators :=
  {| file_id := example_file_id;
     json_dump := fun data => Yield <$> (map_to_list data).*1;
     makedirs := fun path w =>
       Some {| files := files w; dirs := {[ example_file_id path ]} ∪ dirs w;
               stdout := stdout w |};
     glob := fun _ _ _ => [] |}.

(** A world with the directories [in] and [out] and two input files: three
    records in the first, two in the second, whose last record has no
    boundary line after it. *)
Definition example_world : world :=
  {| files :=
       {[ py "in/one.txt" :=
            Yield <$> [line "P" "http://a.com"; line "T" "2008-01-01";
                       line "Q" "hello world"; line "L" "http://b.com"; blank;
                       line "P" "http://c.com"; blank;
                       line "P" "http://d.com"; line "Q" "x"; line "Q" "y"; blank];
          py "in/two.txt" :=
            Yield <$> [line "P" "http://e.com"; blank;
                       line "P" "http://f.com"; blank;
                       line "P" "http://g.com"] ]};
     dirs := {[ py "in"; py "out" ]};
     stdout := [] |}.

(** The lines of the first file of [example_world]. *)
Definition example_one_lines : list read_result :=
  Yield <$> [line "P" "http://a.com"; line "T" "2008-01-01";
             line "Q" "hello world"; line "L" "http://b.com"; blank;
             line "P" "http://c.com"; blank;
             line "P" "http://d.com"; line "Q" "x"; line "Q" "y"; blank].

(** * Properties *)

Example strip_example : strip (py "  P" ++ TAB :: py "x y " ++ [LF]) = py "P" ++ TAB :: py "x y".
Proof. vm_compute. reflexivity. Qed.

Example replace_example : replace (py "a.txt.txt") (py ".txt") (py ".json") = py "a.json.json".
Proof. vm_compute. reflexivity. Qed.

Example replace_empty_example : replace (py "ab") [] (py "-") = py "-a-b-".
Proof. vm_compute. reflexivity. Qed.

Example replace_overlap_example : replace (py "aaa") (py "aa") (py "b") = py "ba".
Proof. vm_compute. reflexivity. Qed.

(** ** Facts about the string operations *)

Lemma split_not_nil sep s : split sep s ≠ [].
Proof. induction s as [|c s IH]; simpl; [done|]. destruct (c =? sep)%N; [done|]. by destruct (split sep s). Qed.

Lemma lstrip_app_space pre s : forallb isspace pre = true → lstrip (pre ++ s) = lstrip s.
Proof.
  induction pre as [|c pre IH]; simpl; [done|].
  intros [Hc Hpre]%andb_true_iff. rewrite Hc. auto.
Qed.

Lemma lstrip_all_space s : forallb isspace s = true → lstrip s = [].
Proof. intros Hs. rewrite <- (app_nil_r s). by rewrite lstrip_app_space. Qed.

Lemma lstrip_decompose s :
  ∃ pre, s = pre ++ lstrip s ∧ forallb isspace pre = true.
Proof.
  induction s as [|c s (pre & Hs & Hpre)]; [by exists []|].
  simpl. destruct (isspace c) eqn:Hc.
  - exists (c :: pre). simpl. rewrite Hc, Hpre. split; [by f_equal|done].
  - by exists [].
Qed.

Lemma lstrip_idemp s : lstrip (lstrip s) = lstrip s.
Proof.
  induction s as [|c s IH]; simpl; [done|].
  destruct (isspace c) eqn:Hc; [done|]. simpl. by rewrite Hc.
Qed.

Lemma lstrip_app_keep s t : lstrip s ≠ [] → lstrip (s ++ t) = lstrip s ++ t.
Proof.
  induction s as [|c s IH]; simpl; [done|].
  destruct (isspace c); [auto|done].
Qed.

Lemma forallb_isspace_reverse s : forallb isspace (reverse s) = forallb isspace s.
Proof.
  apply eq_true_iff_eq. rewrite !forallb_forall.
  split; intros Hs c Hc; apply Hs; by rewrite <- ?list_elem_of_In, ?elem_of_reverse in *.
Qed.

Lemma rstrip_app_space s suf : forallb isspace suf = true → rstrip (s ++ suf) = rstrip s.
Proof.
  intros Hsuf. unfold rstrip. rewrite reverse_app, lstrip_app_space; [done|].
  by rewrite forallb_isspace_reverse.
Qed.

Lemma rstrip_decompose s :
  ∃ suf, s = rstrip s ++ suf ∧ forallb isspace suf = true.
Proof.
  destruct (lstrip_decompose (reverse s)) as (pre & Hs & Hpre).
  exists (reverse pre). split.
  - unfold rstrip. rewrite <- reverse_app, <- Hs. by rewrite reverse_involutive.
  - by rewrite forallb_isspace_reverse.
Qed.

Lemma rstrip_idemp s : rstrip (rstrip s) = rstrip s.
Proof. unfold rstrip. by rewrite reverse_involutive, lstrip_idemp. Qed.

Lemma lstrip_nil_inv s : lstrip s = [] → forallb isspace s = true.
Proof.
  induction s as [|c s IH]; simpl; [done|].
  destruct (isspace c); [auto|done].
Qed.

Lemma rstrip_cons_keep c s : isspace c = false → rstrip (c :: s) = c :: rstrip s.
Proof.
  intros Hc. unfold rstrip. rewrite reverse_cons.
  destruct (lstrip (reverse s)) as [|c' t] eqn:Hs.
  - rewrite lstrip_app_space by by apply lstrip_nil_inv.
    simpl. by rewrite Hc.
  - rewrite lstrip_app_keep by by rewrite Hs.
    by rewrite Hs, reverse_app.
Qed.

Lemma lstrip_rstrip_fixed s : lstrip s = s → lstrip (rstrip s) = rstrip s.
Proof.
  destruct s as [|c s]; [done|]. simpl.
  destruct (isspace c) eqn:Hc.
  - intros Hs. pose proof (lstrip_decompose s) as (pre & Hpre & _).
    rewrite Hs in Hpre. apply (f_equal length) in Hpre.
    rewrite length_app in Hpre. simpl in Hpre. lia.
  - intros _. rewrite rstrip_cons_keep by done. simpl. by rewrite Hc.
Qed.

Lemma lstrip_strip s : lstrip (strip s) = strip s.
Proof. apply lstrip_rstrip_fixed, lstrip_idemp. Qed.

Lemma rstrip_strip s : rstrip (strip s) = strip s.
Proof. apply rstrip_idemp. Qed.

Lemma strip_idemp s : strip (strip s) = strip s.
Proof. unfold strip at 1. by rewrite lstrip_strip, rstrip_strip. Qed.

Lemma strip_decompose s :
  ∃ leading trailing, s = leading ++ strip s ++ trailing
    ∧ forallb isspace leading = true ∧ forallb isspace trailing = true.
Proof.
  destruct (lstrip_decompose s) as (pre & Hs & Hpre).
  destruct (rstrip_decompose (lstrip s)) as (suf & Hl & Hsuf).
  exists pre, suf. unfold strip. by rewrite <- Hl, <- Hs.
Qed.

(** ** Facts about [process_txt_file_line] *)

Lemma two_parts_parts file_line :
  two_parts file_line = true ↔ is_Some (parts file_line).
Proof.
  unfold two_parts, parts. rewrite bool_decide_eq_true.
  destruct (split TAB (strip file_line)) as [|a [|b [|c l]]]; simpl;
    split; try done; try lia; by intros [? ?].
Qed.

Lemma two_parts_false_parts file_line :
  two_parts file_line = false ↔ parts file_line = None.
Proof.
  rewrite <- not_true_iff_false, two_parts_parts, eq_None_not_Some. done.
Qed.

(** The five cases of a line with two parts. *)
Lemma process_txt_file_line_parts file_line tag content d out :
  parts file_line = Some (tag, content) →
  process_txt_file_line file_line d out =
    if decide (tag = py "P") then
      (true, {| tracker_P := content; tracker_T := tracker_T d;
                tracker_Q := tracker_Q d; tracker_L := tracker_L d |}, out)
    else if decide (tag = py "T") then
      (true, {| tracker_P := tracker_P d; tracker_T := content;
                tracker_Q := tracker_Q d; tracker_L := tracker_L d |}, out)
    else if decide (tag = py "Q") then
      (true, {| tracker_P := tracker_P d; tracker_T := tracker_T d;
                tracker_Q := tracker_Q d ++ [content]; tracker_L := tracker_L d |}, out)
    else if decide (tag = py "L") then
      (true, {| tracker_P := tracker_P d; tracker_T := tracker_T d;
                tracker_Q := tracker_Q d; tracker_L := tracker_L d ++ [content] |}, out)
    else
      (true, d, out ++ [py "Invalid line encountered in the file: " ++ strip file_line]).
Proof.
  unfold parts, process_txt_file_line.
  destruct (split TAB (strip file_line)) as [|a [|b [|c l]]]; try done.
  intros [= -> ->]. unfold in_list, set_item, append_item, str_eqb.
  destruct (decide (tag = py "P")) as [->|HP]; [reflexivity|].
  destruct (decide (tag = py "T")) as [->|HT]; [reflexivity|].
  rewrite (bool_decide_eq_false_2 (tag ∈ [py "P"; py "T"]))
    by (rewrite !elem_of_cons, elem_of_nil; tauto).
  destruct (decide (tag = py "Q")) as [->|HQ]; [reflexivity|].
  destruct (decide (tag = py "L")) as [->|HL]; [reflexivity|].
  by rewrite (bool_decide_eq_false_2 (tag ∈ [py "Q"; py "L"]))
    by (rewrite !elem_of_cons, elem_of_nil; tauto).
Qed.

Lemma process_txt_file_line_no_parts file_line d out :
  parts file_line = None →
  process_txt_file_line file_line d out = (false, d, out).
Proof.
  unfold parts, process_txt_file_line.
  by destruct (split TAB (strip file_line)) as [|a [|b [|c l]]].
Qed.

Lemma process_txt_file_line_continues file_line d out :
  (process_txt_file_line file_line d out).1.1 = two_parts file_line.
Proof.
  destruct (parts file_line) as [[tag content]|] eqn:Hp.
  - rewrite (process_txt_file_line_parts _ _ _ _ _ Hp).
    assert (two_parts file_line = true) as -> by (apply two_parts_parts; eauto).
    by repeat case_decide.
  - rewrite (process_txt_file_line_no_parts _ _ _ Hp).
    symmetry. by apply two_parts_false_parts.
Qed.

(** What the function returns and does to the tracker does not depend on
    what has been printed before. *)
Lemma process_txt_file_line_stdout file_line d out :
  (process_txt_file_line file_line d out).1 = (process_txt_file_line file_line d []).1.
Proof.
  destruct (parts file_line) as [[tag content]|] eqn:Hp.
  - rewrite !(process_txt_file_line_parts _ _ _ _ _ Hp). by repeat case_decide.
  - by rewrite !(process_txt_file_line_no_parts _ _ _ Hp).
Qed.

(** ** The record parser *)

(** C1: a line whose split after stripping does not have exactly two parts
    (a blank line, a line without a tab, a line with several tabs) makes
    [process_txt_file_line] return [False]; the tracker and the output are
    as before. *)
Theorem process_txt_file_line_boundary file_line d out :
  length (split TAB (strip file_line)) ≠ 2%nat →
  process_txt_file_line file_line d out = (false, d, out).
Proof.
  intros Hlen. apply process_txt_file_line_no_parts.
  apply two_parts_false_parts. unfold two_parts. by apply bool_decide_eq_false.
Qed.

Lemma contents_tagged_cons tag file_line file_lines t c :
  parts file_line = Some (t, c) →
  contents_tagged tag (file_line :: file_lines) =
    if decide (t = tag) then c :: contents_tagged tag file_lines
    else contents_tagged tag file_lines.
Proof.
  intros Hp. unfold contents_tagged. simpl. rewrite Hp.
  case_bool_decide; by case_decide.
Qed.

Lemma default_last_cons {A} (x y : A) l : default x (last (y :: l)) = default y (last l).
Proof. rewrite last_cons. by destruct (last l). Qed.

Lemma tracker_after_cons d file_line file_lines out :
  two_parts file_line = true →
  tracker_after d (file_line :: file_lines) =
    tracker_after (process_txt_file_line file_line d out).1.2 file_lines.
Proof.
  intros [[t c] Hp]%two_parts_parts.
  rewrite (process_txt_file_line_parts _ _ _ _ _ Hp).
  unfold tracker_after.
  rewrite !(contents_tagged_cons _ _ _ _ _ Hp).
  destruct (decide (t = py "P")) as [->|HP]; [simpl; by rewrite default_last_cons|].
  destruct (decide (t = py "T")) as [->|HT]; [simpl; by rewrite default_last_cons|].
  destruct (decide (t = py "Q")) as [->|HQ]; [simpl; by rewrite <- app_assoc|].
  destruct (decide (t = py "L")) as [->|HL]; [simpl; by rewrite <- app_assoc|].
  done.
Qed.

(** Lines with two parts change the tracker (and may print), nothing else. *)
Lemma for_file_line_in_fields file_lines st :
  Forall (fun file_line => two_parts file_line = true) file_lines →
  let st' := for_file_line_in (Yield <$> file_lines) st in
  St.output_json_file_data st' = St.output_json_file_data st
  ∧ St.meme_record_id st' = St.meme_record_id st
  ∧ St.individual_meme_data_dict st' =
      tracker_after (St.individual_meme_data_dict st) file_lines.
Proof.
  intros Hall. revert st.
  induction Hall as [|file_line file_lines Hl Hall IH]; intros st; simpl.
  - destruct st as [data [] id out]. unfold tracker_after. simpl.
    by rewrite !app_nil_r.
  - pose proof (process_txt_file_line_continues file_line
                  (St.individual_meme_data_dict st) (St.printed st)) as Hc.
    rewrite Hl in Hc.
    rewrite (tracker_after_cons _ _ _ (St.printed st) Hl).
    destruct (process_txt_file_line file_line _ _) as [[continues d] out'].
    simpl in Hc. subst continues. simpl.
    destruct (IH {| St.output_json_file_data := St.output_json_file_data st;
                    St.individual_meme_data_dict := d;
                    St.meme_record_id := St.meme_record_id st;
                    St.printed := out' |}) as (? & ? & ?).
    done.
Qed.

(** C2: after the lines processed since a reset, all with two parts, the
    url and the timestamp of the tracker are the contents of the last ['P']
    and of the last ['T'] line, and its phrases and links are the contents
    of the ['Q'] and of the ['L'] lines in the order of the lines. *)
Theorem fields_since_reset file_lines data id out :
  Forall (fun file_line => two_parts file_line = true) file_lines →
  let d := St.individual_meme_data_dict
             (for_file_line_in (Yield <$> file_lines)
                {| St.output_json_file_data := data;
                   St.individual_meme_data_dict := construct_meme_data_tracker_dict;
                   St.meme_record_id := id;
                   St.printed := out |}) in
  tracker_P d = last_content (py "P") file_lines
  ∧ tracker_T d = last_content (py "T") file_lines
  ∧ tracker_Q d = contents_tagged (py "Q") file_lines
  ∧ tracker_L d = contents_tagged (py "L") file_lines.
Proof.
  intros Hall.
  destruct (for_file_line_in_fields file_lines
              {| St.output_json_file_data := data;
                 St.individual_meme_data_dict := construct_meme_data_tracker_dict;
                 St.meme_record_id := id;
                 St.printed := out |} Hall) as (_ & _ & Hd).
  simpl. rewrite Hd. done.
Qed.

(** ** Stripping *)

Lemma strip_app_space leading core trailing :
  forallb isspace leading = true →
  forallb isspace trailing = true →
  strip (leading ++ core ++ trailing) = strip core.
Proof.
  intros Hl Ht. unfold strip. rewrite lstrip_app_space by done.
  destruct (lstrip core) as [|c s] eqn:Hcore.
  - rewrite lstrip_all_space; [done|].
    rewrite forallb_app, Ht, (lstrip_nil_inv _ Hcore). done.
  - rewrite lstrip_app_keep by by rewrite Hcore.
    by rewrite Hcore, rstrip_app_space.
Qed.

(** Whitespace at either end of the raw line has no effect. *)
Lemma process_txt_file_line_app_space leading core trailing d out :
  forallb isspace leading = true →
  forallb isspace trailing = true →
  process_txt_file_line (leading ++ core ++ trailing) d out =
    process_txt_file_line core d out.
Proof.
  intros Hl Ht. unfold process_txt_file_line. by rewrite strip_app_space.
Qed.

(** What [strip] removes: whitespace in front and behind, and all of it. *)
Lemma strip_both_ends file_line d out :
  (∃ leading trailing,
      file_line = leading ++ strip file_line ++ trailing
      ∧ forallb isspace leading = true ∧ forallb isspace trailing = true)
  ∧ lstrip (strip file_line) = strip file_line
  ∧ rstrip (strip file_line) = strip file_line
  ∧ process_txt_file_line file_line d out =
      process_txt_file_line (strip file_line) d out.
Proof.
  split; [apply strip_decompose|].
  split; [apply lstrip_strip|]. split; [apply rstrip_strip|].
  unfold process_txt_file_line. by rewrite strip_idemp.
Qed.

(** C6 at two lines that start with whitespace.  The comment of line 188
    announces the removal of trailing whitespace, and without its trailing
    whitespace the line [ P<TAB>u] has the tag [ P] and the line [<TAB>foo]
    has the empty tag: both would be invalid lines, printed and passed over.
    Line 189 calls [strip], which removes the whitespace in front too: the
    first line sets the url, and the second, left with one part, is taken
    for a boundary line. *)
Theorem leading_whitespace_stripped :
  let d := {| tracker_P := py "http://a.com"; tracker_T := []; tracker_Q := [];
              tracker_L := [] |} in
  (let file_line := SPACE :: py "P" ++ TAB :: py "u" ++ [LF] in
   split TAB (rstrip file_line) = [py " P"; py "u"]
   ∧ split TAB (strip file_line) = [py "P"; py "u"]
   ∧ process_txt_file_line file_line d [] =
       (true, {| tracker_P := py "u"; tracker_T := []; tracker_Q := [];
                 tracker_L := [] |}, []))
  ∧ (let file_line := TAB :: py "foo" ++ [LF] in
     split TAB (rstrip file_line) = [[]; py "foo"]
     ∧ split TAB (strip file_line) = [py "foo"]
     ∧ process_txt_file_line file_line d [] = (false, d, [])).
Proof. vm_compute. repeat split; reflexivity. Qed.

(** ** The loop over the lines *)

Lemma for_file_line_in_yield file_line txt_file st :
  for_file_line_in (Yield file_line :: txt_file) st =
    if two_parts file_line then
      for_file_line_in txt_file
        {| St.output_json_file_data := St.output_json_file_data st;
           St.individual_meme_data_dict :=
             (process_txt_file_line file_line (St.individual_meme_data_dict st) []).1.2;
           St.meme_record_id := St.meme_record_id st;
           St.printed :=
             (process_txt_file_line file_line (St.individual_meme_data_dict st)
                (St.printed st)).2 |}
    else for_file_line_in txt_file (flushed st).
Proof.
  simpl.
  pose proof (process_txt_file_line_continues file_line
                (St.individual_meme_data_dict st) (St.printed st)) as Hc.
  pose proof (process_txt_file_line_stdout file_line
                (St.individual_meme_data_dict st) (St.printed st)) as Ho.
  destruct (two_parts file_line) eqn:Hl.
  - destruct (process_txt_file_line file_line _ (St.printed st)) as [[continues d] out'].
    simpl in *. subst continues. rewrite <- Ho. done.
  - apply two_parts_false_parts in Hl.
    rewrite (process_txt_file_line_no_parts _ _ _ Hl). done.
Qed.

Lemma for_file_line_in_app txt1 txt2 st :
  for_file_line_in (txt1 ++ txt2) st =
    if decide (RaiseUnicodeDecodeError ∈ txt1) then for_file_line_in txt1 st
    else for_file_line_in txt2 (for_file_line_in txt1 st).
Proof.
  revert st. induction txt1 as [|[file_line|] txt1 IH]; intros st.
  - by rewrite decide_False by apply not_elem_of_nil.
  - rewrite <- app_comm_cons, !for_file_line_in_yield.
    destruct (two_parts file_line); rewrite IH;
      (destruct (decide (RaiseUnicodeDecodeError ∈ txt1)) as [Hin|Hin];
       [rewrite decide_True by (rewrite elem_of_cons; by right)
       |rewrite decide_False by (rewrite elem_of_cons; by intros [?|?])]); done.
  - rewrite decide_True by (rewrite elem_of_cons; by left). done.
Qed.

Lemma not_elem_of_yields (file_lines : list str) :
  RaiseUnicodeDecodeError ∉ Yield <$> file_lines.
Proof. rewrite list_elem_of_fmap. by intros (? & ? & ?). Qed.

(** The document and the counter after the loop, from its history. *)
Lemma for_file_line_in_records txt_file st :
  let records :=
    records_completed txt_file (St.individual_meme_data_dict st) (St.meme_record_id st) in
  St.output_json_file_data (for_file_line_in txt_file st) =
    store (St.output_json_file_data st) records
  ∧ St.meme_record_id (for_file_line_in txt_file st) =
      St.meme_record_id st + Z.of_nat (length records).
Proof.
  revert st. induction txt_file as [|[file_line|] txt_file IH]; intros st.
  - simpl. split; [done|lia].
  - rewrite for_file_line_in_yield. simpl.
    pose proof (process_txt_file_line_continues file_line
                  (St.individual_meme_data_dict st) []) as Hc.
    destruct (two_parts file_line) eqn:Hl.
    + destruct (process_txt_file_line file_line _ []) as [[continues d] out'] eqn:Hp.
      simpl in Hc. subst continues. simpl. apply IH.
    + apply two_parts_false_parts in Hl.
      rewrite (process_txt_file_line_no_parts _ _ _ Hl). simpl.
      destruct (IH (flushed st)) as [Hd Hi]. simpl in Hd, Hi.
      rewrite Hd, Hi. split; [done|lia].
  - simpl. split; [done|lia].
Qed.

(** The ids in the history count up from the counter at the start. *)
Lemma records_completed_ids txt_file d id :
  id_num <$> records_completed txt_file d id =
    (fun i => id + Z.of_nat i) <$> seq 0 (length (records_completed txt_file d id)).
Proof.
  revert d id. induction txt_file as [|[file_line|] txt_file IH]; intros d id; try done.
  simpl. destruct (process_txt_file_line file_line d []) as [[[] d'] out']; simpl.
  - apply IH.
  - rewrite IH, <- fmap_S_seq, <- list_fmap_compose.
    f_equal; [lia|]. apply list_fmap_ext. intros _ i _. simpl. lia.
Qed.

(** ** Documents built by successive additions *)

Lemma add_data_to_json_file_data_dict_record d data id :
  add_data_to_json_file_data_dict d data id = <[ tracker_P d := record_of d id ]> data.
Proof. done. Qed.

Lemma store_snoc data records r :
  store data (records ++ [r]) = <[ url r := r ]> (store data records).
Proof. unfold store. by rewrite foldl_snoc. Qed.

(** Under a url the document holds the last record added with that url. *)
Lemma store_lookup data records u :
  store data records !! u =
    match last (filter (fun r => url r = u) records) with
    | Some r => Some r
    | None => data !! u
    end.
Proof.
  induction records as [|r records IH] using rev_ind; [done|].
  rewrite store_snoc, filter_app, filter_cons, filter_nil.
  destruct (decide (url r = u)) as [<-|Hne].
  - by rewrite last_snoc, lookup_insert_eq.
  - by rewrite app_nil_r, lookup_insert_ne.
Qed.

Lemma store_lookup_is_Some data records u :
  is_Some (data !! u) → is_Some (store data records !! u).
Proof. rewrite store_lookup. by destruct (last _). Qed.

Lemma store_size data records :
  NoDup (url <$> records) →
  (∀ r, r ∈ records → data !! url r = None) →
  size (store data records) = (size data + length records)%nat.
Proof.
  revert data. induction records as [|r records IH]; intros data Hnd Hfresh; simpl.
  - lia.
  - apply NoDup_cons in Hnd as [Hr Hnd].
    rewrite IH; [|done|].
    + rewrite map_size_insert_None; [lia|]. apply Hfresh, elem_of_cons. by left.
    + intros r' Hr'. rewrite lookup_insert_ne.
      * apply Hfresh, elem_of_cons. by right.
      * intros Heq. apply Hr. rewrite Heq. apply list_elem_of_fmap. eauto.
Qed.

(** ** The history of a file of boundary-delimited records *)

Lemma records_completed_fields fields txt_file d id :
  Forall (fun file_line => two_parts file_line = true) fields →
  records_completed ((Yield <$> fields) ++ txt_file) d id =
    records_completed txt_file (tracker_after d fields) id.
Proof.
  intros Hall. revert d.
  induction Hall as [|file_line fields Hl Hall IH]; intros d.
  - simpl. f_equal. destruct d. unfold tracker_after. simpl. by rewrite !app_nil_r.
  - simpl. rewrite (tracker_after_cons _ _ _ [] Hl).
    pose proof (process_txt_file_line_continues file_line d []) as Hc.
    destruct (process_txt_file_line file_line d []) as [[continues d'] out'].
    simpl in Hc. rewrite Hl in Hc. subst continues. simpl. apply IH.
Qed.

Lemma records_completed_boundary file_line txt_file d id :
  two_parts file_line = false →
  records_completed (Yield file_line :: txt_file) d id =
    record_of d id :: records_completed txt_file construct_meme_data_tracker_dict (id + 1).
Proof.
  intros Hl%two_parts_false_parts. simpl.
  by rewrite (process_txt_file_line_no_parts _ _ _ Hl).
Qed.

Lemma record_of_tracker_after fields id :
  record_of (tracker_after construct_meme_data_tracker_dict fields) id =
    record_described fields id.
Proof. done. Qed.

Lemma records_completed_described blocks id :
  Forall well_delimited blocks →
  records_completed (file_of_records blocks) construct_meme_data_tracker_dict id =
    records_described blocks id.
Proof.
  intros Hall. revert id.
  induction Hall as [|[fields boundary] blocks [Hf Hb] Hall IH]; intros id; [done|].
  unfold file_of_records. rewrite fmap_cons. simpl. unfold record_lines at 1. simpl in *.
  rewrite fmap_app, <- app_assoc, records_completed_fields by done.
  simpl ((Yield <$> [boundary]) ++ _).
  rewrite records_completed_boundary, record_of_tracker_after by done.
  f_equal. apply IH.
Qed.

Lemma length_records_described blocks id :
  length (records_described blocks id) = length blocks.
Proof. revert id. induction blocks as [|b blocks IH]; intros id; simpl; [done|]. by rewrite IH. Qed.

(** ** The conversion of the lines of a file

    The theorems of this part are about [for_file_line_in], the loop of
    [convert_txt_file_to_json]; the function enters it in [initial_state]
    and returns its counter and writes its document
    ([convert_txt_file_to_json_of_lines]). *)

(** C4: the field lines that follow the last boundary line of a file leave
    the document and the counter as they were after that boundary line, and
    add nothing to the history: the record in progress at the end of the
    file is not stored and not counted. *)
Theorem pending_record_dropped txt_file fields st :
  Forall (fun file_line => two_parts file_line = true) fields →
  let st1 := for_file_line_in txt_file st in
  let st2 := for_file_line_in (txt_file ++ (Yield <$> fields)) st in
  St.output_json_file_data st2 = St.output_json_file_data st1
  ∧ St.meme_record_id st2 = St.meme_record_id st1
  ∧ records_completed (txt_file ++ (Yield <$> fields))
      (St.individual_meme_data_dict st) (St.meme_record_id st) =
    records_completed txt_file (St.individual_meme_data_dict st) (St.meme_record_id st).
Proof.
  intros Hall. simpl.
  assert (St.output_json_file_data (for_file_line_in (txt_file ++ (Yield <$> fields)) st) =
            St.output_json_file_data (for_file_line_in txt_file st)
          ∧ St.meme_record_id (for_file_line_in (txt_file ++ (Yield <$> fields)) st) =
              St.meme_record_id (for_file_line_in txt_file st)) as [Hd Hi].
  { rewrite for_file_line_in_app. case_decide; [done|].
    destruct (for_file_line_in_fields fields (for_file_line_in txt_file st) Hall)
      as (? & ? & _). done. }
  split; [done|]. split; [done|].
  clear Hd Hi. generalize (St.individual_meme_data_dict st) (St.meme_record_id st).
  induction txt_file as [|[file_line|] txt_file IH]; intros d id.
  - simpl. rewrite <- (app_nil_r (Yield <$> fields)).
    by rewrite records_completed_fields.
  - simpl. destruct (process_txt_file_line file_line d []) as [[[] d'] out']; simpl.
    + apply IH.
    + f_equal. apply IH.
  - done.
Qed.

(** C5, as stated, fails: the lines after a failing read are not processed.
    Here a record follows the failure; reading on would store it and return
    2, the program stores only the first record and returns 1. *)
Lemma decoding_failure_counterexample :
  let txt_file :=
    [Yield (py "P" ++ TAB :: py "a" ++ [LF]); Yield [LF]; RaiseUnicodeDecodeError;
     Yield (py "P" ++ TAB :: py "b" ++ [LF]); Yield [LF]] in
  let st := for_file_line_in txt_file (initial_state 0 []) in
  let st_skip := for_file_line_in (skip_undecodable txt_file) (initial_state 0 []) in
  St.meme_record_id st ≠ St.meme_record_id st_skip
  ∧ St.meme_record_id st = 1
  ∧ St.output_json_file_data st !! py "b" = None
  ∧ St.meme_record_id st_skip = 2
  ∧ St.output_json_file_data st_skip !! py "b" =
      Some {| url := py "b"; id_num := 1; timestamp := []; phrases := []; links := [] |}.
Proof. vm_compute. repeat split; discriminate. Qed.

(** C5, as amended: a failing read ends the reading of the file.  After the
    lines read before it, the handler prints its message once; no line
    after the failure is processed, so the document and the counter are
    those reached before the failure. *)
Theorem decoding_failure_ends_reading (file_lines : list str) txt_file st :
  for_file_line_in ((Yield <$> file_lines) ++ RaiseUnicodeDecodeError :: txt_file) st =
    warned (for_file_line_in (Yield <$> file_lines) st).
Proof.
  rewrite for_file_line_in_app.
  by rewrite decide_False by apply not_elem_of_yields.
Qed.

(** C7: for a file of boundary-delimited records, the document holds under
    each url the last record with that url; when the urls of the records are
    distinct it has as many keys as the file has records. *)
Theorem url_keyed_output blocks id out :
  Forall well_delimited blocks →
  let data :=
    St.output_json_file_data
      (for_file_line_in (file_of_records blocks) (initial_state id out)) in
  let records := records_described blocks id in
  (∀ u, data !! u = last (filter (fun r => url r = u) records))
  ∧ (NoDup (url <$> records) → size data = length blocks).
Proof.
  intros Hall. simpl.
  destruct (for_file_line_in_records (file_of_records blocks) (initial_state id out))
    as [Hd _].
  simpl in Hd. rewrite records_completed_described in Hd by done.
  rewrite Hd. split.
  - intros u. rewrite store_lookup, lookup_empty. by destruct (last _).
  - intros Hnd. rewrite store_size, length_records_described; [|done|done].
    by rewrite map_size_empty.
Qed.

(** C10: every boundary line stores the tracker and moves the counter on,
    whatever the tracker holds; of two boundary lines in a row the second
    stores under the url [''] a record with empty timestamp, phrases and
    links and takes an id of its own.  The key [''] is in the document at
    the end of the loop. *)
Theorem consecutive_boundaries b1 b2 txt_file st :
  two_parts b1 = false →
  two_parts b2 = false →
  let st' := for_file_line_in (Yield b1 :: Yield b2 :: txt_file) st in
  for_file_line_in (Yield b1 :: txt_file) st = for_file_line_in txt_file (flushed st)
  ∧ st' = for_file_line_in txt_file (flushed (flushed st))
  ∧ St.output_json_file_data (flushed (flushed st)) !! [] =
      Some {| url := []; id_num := St.meme_record_id st + 1; timestamp := [];
              phrases := []; links := [] |}
  ∧ St.meme_record_id (flushed (flushed st)) = St.meme_record_id st + 2
  ∧ is_Some (St.output_json_file_data st' !! [])
  ∧ St.meme_record_id st + 2 ≤ St.meme_record_id st'.
Proof.
  intros Hb1 Hb2. cbv zeta.
  assert (for_file_line_in (Yield b1 :: Yield b2 :: txt_file) st =
            for_file_line_in txt_file (flushed (flushed st))) as Hst'.
  { by rewrite !for_file_line_in_yield, Hb1, Hb2. }
  assert (St.output_json_file_data (flushed (flushed st)) !! [] =
            Some {| url := []; id_num := St.meme_record_id st + 1; timestamp := [];
                    phrases := []; links := [] |}) as Hkey.
  { simpl. rewrite add_data_to_json_file_data_dict_record. apply lookup_insert_eq. }
  split; [by rewrite for_file_line_in_yield, Hb1|].
  split; [done|]. split; [done|]. split; [simpl; lia|].
  rewrite Hst'.
  destruct (for_file_line_in_records txt_file (flushed (flushed st))) as [Hd Hi].
  rewrite Hd, Hi. split.
  - apply store_lookup_is_Some. rewrite Hkey. eauto.
  - simpl. lia.
Qed.

(** ** The name of the output file *)

Lemma startswith_refl s : startswith s s = true.
Proof. induction s as [|c s IH]; simpl; [done|]. by rewrite N.eqb_refl. Qed.

Lemma startswith_app s t : startswith (s ++ t) s = true.
Proof. induction s as [|c s IH]; simpl; [done|]. by rewrite N.eqb_refl. Qed.

Lemma replace_from_skip_all old new s : replace_from old new (length s) s = [].
Proof. induction s as [|c s IH]; simpl; done. Qed.

Lemma replace_from_self old new : old ≠ [] → replace_from old new 0 old = new.
Proof.
  destruct old as [|e old']; [done|]. intros _. simpl.
  rewrite N.eqb_refl, startswith_refl. simpl.
  by rewrite Nat.sub_0_r, replace_from_skip_all, app_nil_r.
Qed.

Lemma replace_from_cons_no_match old new c s :
  startswith (c :: s) old = false →
  replace_from old new 0 (c :: s) = c :: replace_from old new 0 s.
Proof. intros Hs. simpl replace_from. by rewrite Hs. Qed.

(** Where [old], not empty, occurs in [base ++ old] at the end and nowhere
    before, replacing it replaces the end. *)
Lemma replace_suffix base old new :
  old ≠ [] →
  (∀ i, (i < length base)%nat → startswith (drop i (base ++ old)) old = false) →
  replace (base ++ old) old new = base ++ new.
Proof.
  intros Hold Hocc.
  assert (replace (base ++ old) old new = replace_from old new 0 (base ++ old)) as ->.
  { unfold replace. by destruct old. }
  induction base as [|c base IH].
  - by apply replace_from_self.
  - pose proof (Hocc 0%nat ltac:(simpl; lia)) as H0. rewrite drop_0 in H0.
    rewrite <- !app_comm_cons in *.
    rewrite replace_from_cons_no_match by done. f_equal. apply IH.
    intros i Hi. apply (Hocc (S i)). simpl. lia.
Qed.

(** Where the extension, not empty, occurs in the name at its end and
    nowhere before, the output name is the base name followed by [.json]. *)
Lemma output_json_file_name_suffix base ext :
  ext ≠ [] →
  (∀ i, (i < length base)%nat → startswith (drop i (base ++ ext)) ext = false) →
  output_json_file_name (base ++ ext) ext = base ++ py ".json".
Proof. apply replace_suffix. Qed.

(** C9 at the name [a.txt.txt] with the extension [.txt]: the name ends in
    the extension and its base name is [a.txt], yet the output name is
    [a.json.json], since the occurrence inside the base name is replaced
    too. *)
Theorem output_json_file_name_inner_extension :
  output_json_file_name (py "a.txt" ++ py ".txt") (py ".txt") = py "a.json.json"
  ∧ output_json_file_name (py "a.txt" ++ py ".txt") (py ".txt") ≠ py "a.txt" ++ py ".json".
Proof. vm_compute. split; [reflexivity|discriminate]. Qed.

(** An empty extension ends every name; the output name is not the name
    followed by [.json] either. *)
Example output_json_file_name_empty_extension :
  output_json_file_name (py "ab") [] = py ".jsona.jsonb.json".
Proof. vm_compute. reflexivity. Qed.

Section ProgramProperties.
Context {collaborators : Collaborators}.

(** ** One file *)

(** C8: when the input path names no file, [convert_txt_file_to_json]
    prints one message and returns the counter it was given; the files and
    the directories are as before. *)
Theorem missing_input_file dir name ext outdir id w :
  exist_file (path_join dir name) w = false →
  convert_txt_file_to_json dir name ext outdir id w =
    (id, print (py "The path to the given input txt file is invalid. File Path: "
                ++ path_join dir name) w)
  ∧ files (convert_txt_file_to_json dir name ext outdir id w).2 = files w
  ∧ dirs (convert_txt_file_to_json dir name ext outdir id w).2 = dirs w.
Proof.
  intros Hmissing. unfold convert_txt_file_to_json. by rewrite Hmissing.
Qed.

(** When the input file exists, the result is that of the loop over the
    lines of the file, opened after the output file has been opened for
    writing. *)
Lemma convert_txt_file_to_json_existing dir name ext outdir id w :
  exist_file (path_join dir name) w = true →
  let output_json_file_path := path_join outdir (output_json_file_name name ext) in
  let st := for_file_line_in
              (open_r (path_join dir name) (open_w output_json_file_path w))
              (initial_state id (stdout w)) in
  convert_txt_file_to_json dir name ext outdir id w =
    (St.meme_record_id st,
     {| files := <[ file_id output_json_file_path :=
                      json_dump (St.output_json_file_data st) ]>
                   (<[ file_id output_json_file_path := [] ]> (files w));
        dirs := dirs w;
        stdout := St.printed st |}).
Proof.
  intros Hexists. unfold convert_txt_file_to_json. by rewrite Hexists.
Qed.

(** For an input file with the lines [txt_file], other than the output file:
    the call returns the counter of the loop over [txt_file] and writes the
    document of that loop to the output file. *)
Lemma convert_txt_file_to_json_of_lines dir name ext outdir id w txt_file :
  files w !! file_id (path_join dir name) = Some txt_file →
  file_id (path_join outdir (output_json_file_name name ext)) ≠
    file_id (path_join dir name) →
  let st := for_file_line_in txt_file (initial_state id (stdout w)) in
  (convert_txt_file_to_json dir name ext outdir id w).1 = St.meme_record_id st
  ∧ files (convert_txt_file_to_json dir name ext outdir id w).2
      !! file_id (path_join outdir (output_json_file_name name ext)) =
      Some (json_dump (St.output_json_file_data st))
  ∧ stdout (convert_txt_file_to_json dir name ext outdir id w).2 = St.printed st.
Proof.
  intros Hfile Hne.
  assert (exist_file (path_join dir name) w = true) as Hexists.
  { unfold exist_file. apply bool_decide_eq_true. rewrite Hfile. eauto. }
  rewrite (convert_txt_file_to_json_existing _ _ _ _ _ _ Hexists). simpl.
  unfold open_r, open_w. simpl.
  rewrite lookup_insert_ne by done. rewrite Hfile. simpl.
  by rewrite lookup_insert_eq.
Qed.

(** The counter returned and the file written, from the history. *)
Lemma convert_txt_file_to_json_id dir name ext outdir id w :
  (convert_txt_file_to_json dir name ext outdir id w).1 =
    id + Z.of_nat (length (file_records_completed dir name ext outdir id w)).
Proof.
  unfold convert_txt_file_to_json, file_records_completed.
  destruct (exist_file (path_join dir name) w); simpl; [|lia].
  apply (for_file_line_in_records _ (initial_state id _)).
Qed.

Lemma convert_txt_file_to_json_written dir name ext outdir id w :
  exist_file (path_join dir name) w = true →
  files (convert_txt_file_to_json dir name ext outdir id w).2
    !! file_id (path_join outdir (output_json_file_name name ext)) =
    Some (json_dump (store ∅ (file_records_completed dir name ext outdir id w))).
Proof.
  intros Hexists. unfold convert_txt_file_to_json, file_records_completed.
  rewrite Hexists. simpl. rewrite lookup_insert_eq. do 2 f_equal.
  apply (for_file_line_in_records _ (initial_state id _)).
Qed.

(** ** The files of a run *)

Lemma count_from_app id n m :
  (fun i => id + Z.of_nat i) <$> seq 0 (n + m) =
    ((fun i => id + Z.of_nat i) <$> seq 0 n)
    ++ ((fun i => (id + Z.of_nat n) + Z.of_nat i) <$> seq 0 m).
Proof.
  rewrite seq_app, fmap_app. f_equal. simpl.
  replace (seq n m) with (Nat.add n <$> seq 0 m)
    by (rewrite fmap_add_seq; f_equal; lia).
  rewrite <- list_fmap_compose.
  apply list_fmap_ext. intros _ i _. simpl. lia.
Qed.

Lemma file_records_completed_ids dir name ext outdir id w :
  id_num <$> file_records_completed dir name ext outdir id w =
    (fun i => id + Z.of_nat i)
      <$> seq 0 (length (file_records_completed dir name ext outdir id w)).
Proof.
  unfold file_records_completed.
  destruct (exist_file (path_join dir name) w); simpl; [|done].
  apply records_completed_ids.
Qed.

Lemma batch_records_completed_ids names dir ext outdir id w :
  let records := batch_records_completed names dir ext outdir id w in
  id_num <$> records = (fun i => id + Z.of_nat i) <$> seq 0 (length records)
  ∧ (for_input_file_name_in names dir ext outdir id w).1 = id + Z.of_nat (length records).
Proof.
  revert id w. induction names as [|name names IH]; intros id w; simpl.
  - split; [done|lia].
  - pose proof (convert_txt_file_to_json_id dir name ext outdir id w) as Hid.
    destruct (convert_txt_file_to_json dir name ext outdir id w) as [id' w'].
    simpl in Hid. destruct (IH id' w') as [Hids Hret]. simpl in Hids.
    rewrite fmap_app, length_app, count_from_app, Hids, Hret, Hid.
    rewrite file_records_completed_ids. split; [done|lia].
Qed.

(** The names that a run converts and the world in which it starts to
    convert them (line 306), for a run that has passed the checks of the
    directories in the world [w0]. *)
Lemma convert_listed_files_loop dir ext outdir file_names_list w0 names w1 :
  file_names_list ≠ [] ∧ names = file_names_list ∧ w1 = w0
  ∨ file_names_list = [] ∧ (names, w1) = get_file_names dir ext w0 →
  convert_listed_files dir ext outdir file_names_list w0 =
    (for_input_file_name_in names dir ext outdir 0 w1).2
  ∧ records_of_listed_files dir ext outdir file_names_list w0 =
      batch_records_completed names dir ext outdir 0 w1.
Proof.
  unfold convert_listed_files, records_of_listed_files.
  intros [(Hne & -> & ->)|(-> & Hnames)].
  - by destruct file_names_list.
  - by rewrite <- Hnames.
Qed.

(** C3: the ids of the records completed in one run, in the order of
    completion across the files, are 0, 1, 2, ...  A run that stops at the
    check of a directory converts nothing; any other run is the loop over
    the names to convert, entered with the counter 0, and the records
    completed in the run are those completed in that loop.  The loop hands
    each call of [convert_txt_file_to_json] the value the call before
    returned, a call returns the counter it was given plus the number of
    the records it completed, the ids of these records count up from the
    counter it was given, and they are the records of the document it
    writes. *)
Theorem batch_record_ids dir ext outdir file_names_list w :
  let records := records_of_run dir ext outdir file_names_list w in
  let run := convert_txt_files_from_directory dir ext outdir file_names_list w in
  id_num <$> records = Z.of_nat <$> seq 0 (length records)
  ∧ (exist_directory dir w = false →
     records = []
     ∧ run = print (py "The given directory path for the input " ++ ext
                    ++ py " files is invalid. Given " ++ dir) w)
  ∧ (exist_directory dir w = true →
     exist_directory outdir w = false →
     makedirs outdir w = None →
     records = []
     ∧ run = print (py "Invalid path to the JSON files Output directory. Given "
                    ++ outdir) w)
  ∧ (∀ w0 names w1,
       exist_directory dir w = true →
       exist_directory outdir w = true ∧ w0 = w
       ∨ exist_directory outdir w = false ∧ makedirs outdir w = Some w0 →
       file_names_list ≠ [] ∧ names = file_names_list ∧ w1 = w0
       ∨ file_names_list = [] ∧ (names, w1) = get_file_names dir ext w0 →
       run = (for_input_file_name_in names dir ext outdir 0 w1).2
       ∧ records = batch_records_completed names dir ext outdir 0 w1)
  ∧ (∀ names id w',
       id_num <$> batch_records_completed names dir ext outdir id w' =
         (fun i => id + Z.of_nat i)
           <$> seq 0 (length (batch_records_completed names dir ext outdir id w'))
       ∧ (for_input_file_name_in names dir ext outdir id w').1 =
           id + Z.of_nat (length (batch_records_completed names dir ext outdir id w')))
  ∧ (∀ name id w',
       (convert_txt_file_to_json dir name ext outdir id w').1 =
         id + Z.of_nat (length (file_records_completed dir name ext outdir id w'))
       ∧ (exist_file (path_join dir name) w' = true →
          files (convert_txt_file_to_json dir name ext outdir id w').2
            !! file_id (path_join outdir (output_json_file_name name ext)) =
            Some (json_dump (store ∅ (file_records_completed dir name ext outdir id w'))))).
Proof.
  cbv zeta. split; [|split; [|split; [|split; [|split]]]].
  - assert (∀ list w', id_num <$> records_of_listed_files dir ext outdir list w' =
              Z.of_nat <$> seq 0 (length (records_of_listed_files dir ext outdir list w')))
      as Hlisted.
    { intros list w'. unfold records_of_listed_files.
      destruct (match list with
                | [] => get_file_names dir ext w'
                | _ :: _ => (list, w')
                end) as [names w''].
      destruct (batch_records_completed_ids names dir ext outdir 0 w'') as [Hids _].
      simpl in Hids. rewrite Hids. apply list_fmap_ext. intros _ i _. lia. }
    unfold records_of_run.
    destruct (exist_directory dir w); simpl; [|done].
    destruct (exist_directory outdir w); simpl; [apply Hlisted|].
    destruct (makedirs outdir w); [apply Hlisted|done].
  - intros Hdir. unfold records_of_run, convert_txt_files_from_directory.
    by rewrite Hdir.
  - intros Hdir Hout Hmk. unfold records_of_run, convert_txt_files_from_directory.
    by rewrite Hdir, Hout, Hmk.
  - intros w0 names w1 Hdir Hw0 Hnames.
    unfold records_of_run, convert_txt_files_from_directory. rewrite Hdir. simpl.
    destruct Hw0 as [[Hout ->]|[Hout Hmk]]; rewrite Hout; simpl; rewrite ?Hmk;
      by apply convert_listed_files_loop.
  - intros. apply batch_records_completed_ids.
  - intros. split; [apply convert_txt_file_to_json_id|].
    apply convert_txt_file_to_json_written.
Qed.

End ProgramProperties.

(** ** The properties at concrete inputs *)

Lemma process_txt_file_line_boundary_witness :
  length (split TAB (strip blank)) ≠ 2%nat
  ∧ process_txt_file_line blank
      {| tracker_P := py "http://a.com"; tracker_T := []; tracker_Q := [py "q"];
         tracker_L := [] |} [] =
    (false, {| tracker_P := py "http://a.com"; tracker_T := []; tracker_Q := [py "q"];
               tracker_L := [] |}, []).
Proof.
  split; [vm_compute; discriminate|].
  apply process_txt_file_line_boundary. vm_compute. discriminate.
Defined.

Lemma fields_since_reset_witness :
  let file_lines := [line "P" "a"; line "Q" "x"; line "P" "b"; line "L" "l"; line "Q" "y"] in
  let d := St.individual_meme_data_dict
             (for_file_line_in (Yield <$> file_lines) (initial_state 7 [])) in
  Forall (fun file_line => two_parts file_line = true) file_lines
  ∧ tracker_P d = last_content (py "P") file_lines
  ∧ tracker_T d = last_content (py "T") file_lines
  ∧ tracker_Q d = contents_tagged (py "Q") file_lines
  ∧ tracker_L d = contents_tagged (py "L") file_lines.
Proof.
  assert (Forall (fun file_line => two_parts file_line = true)
            [line "P" "a"; line "Q" "x"; line "P" "b"; line "L" "l"; line "Q" "y"]) as Hall.
  { repeat (constructor; [vm_compute; reflexivity|]). constructor. }
  split; [exact Hall|].
  exact (fields_since_reset _ ∅ 7 [] Hall).
Defined.

Lemma pending_record_dropped_witness :
  let txt_file := Yield <$> [line "P" "a"; blank] in
  let fields := [line "P" "b"; line "Q" "x"] in
  let st1 := for_file_line_in txt_file (initial_state 0 []) in
  let st2 := for_file_line_in (txt_file ++ (Yield <$> fields)) (initial_state 0 []) in
  Forall (fun file_line => two_parts file_line = true) fields
  ∧ St.output_json_file_data st2 = St.output_json_file_data st1
  ∧ St.meme_record_id st2 = St.meme_record_id st1.
Proof.
  assert (Forall (fun file_line => two_parts file_line = true)
            [line "P" "b"; line "Q" "x"]) as Hall.
  { repeat (constructor; [vm_compute; reflexivity|]). constructor. }
  split; [exact Hall|].
  destruct (pending_record_dropped (Yield <$> [line "P" "a"; blank]) _
              (initial_state 0 []) Hall) as (Hd & Hi & _).
  split; [exact Hd|exact Hi].
Defined.

Lemma url_keyed_output_witness :
  let blocks := [([line "P" "a"; line "Q" "x"], blank); ([line "P" "b"], blank)] in
  let data :=
    St.output_json_file_data
      (for_file_line_in (file_of_records blocks) (initial_state 0 [])) in
  Forall well_delimited blocks
  ∧ (∀ u, data !! u = last (filter (fun r => url r = u) (records_described blocks 0)))
  ∧ (NoDup (url <$> records_described blocks 0) → size data = 2%nat).
Proof.
  assert (Forall well_delimited
            [([line "P" "a"; line "Q" "x"], blank); ([line "P" "b"], blank)]) as Hall.
  { repeat (constructor;
            [split; [repeat (constructor; [vm_compute; reflexivity|]); constructor
                    |vm_compute; reflexivity]|]).
    constructor. }
  split; [exact Hall|].
  exact (url_keyed_output _ 0 [] Hall).
Defined.

Lemma consecutive_boundaries_witness :
  let st' := for_file_line_in [Yield blank; Yield blank] (initial_state 0 []) in
  two_parts blank = false
  ∧ St.output_json_file_data st' !! [] =
      Some {| url := []; id_num := 1; timestamp := []; phrases := []; links := [] |}
  ∧ St.meme_record_id st' = 2.
Proof.
  assert (two_parts blank = false) as Hb by (vm_compute; reflexivity).
  split; [exact Hb|].
  destruct (consecutive_boundaries blank blank [] (initial_state 0 []) Hb Hb)
    as (_ & Hst & Hkey & Hid & _).
  cbv zeta. rewrite Hst. split; [exact Hkey|exact Hid].
Defined.

Lemma missing_input_file_witness :
  exist_file (collaborators := example_collaborators)
    (path_join (py "in") (py "three.txt")) example_world = false
  ∧ convert_txt_file_to_json (collaborators := example_collaborators)
      (py "in") (py "three.txt") (py ".txt") (py "out") 5 example_world =
    (5, print (py "The path to the given input txt file is invalid. File Path: "
               ++ py "in/three.txt") example_world).
Proof.
  assert (exist_file (collaborators := example_collaborators)
            (path_join (py "in") (py "three.txt")) example_world = false) as Hm
    by (vm_compute; reflexivity).
  split; [exact Hm|].
  destruct (missing_input_file (collaborators := example_collaborators)
              (py "in") (py "three.txt") (py ".txt") (py "out") 5 example_world Hm)
    as (Hr & _).
  exact Hr.
Defined.

(** ** Examples of the specification *)

(** The five lines of the first example give one record with the id 0. *)
Example one_record :
  St.output_json_file_data
    (for_file_line_in
       (Yield <$> [line "P" "http://a.com"; line "T" "2008-01-01";
                   line "Q" "hello world"; line "L" "http://b.com"; blank])
       (initial_state 0 [])) =
  {[ py "http://a.com" :=
       {| url := py "http://a.com"; id_num := 0; timestamp := py "2008-01-01";
          phrases := [py "hello world"]; links := [py "http://b.com"] |} ]}.
Proof. vm_compute. reflexivity. Qed.

(** Two files, three records in the first and two completed in the second:
    the ids are 0 to 2 and 3 to 4, and the record of [http://g.com], which
    no boundary line follows, is not among them. *)
Example two_files :
  (url <$> records_of_run (collaborators := example_collaborators) (py "in") (py ".txt") (py "out")
             [py "one.txt"; py "two.txt"] example_world,
   id_num <$> records_of_run (collaborators := example_collaborators) (py "in") (py ".txt") (py "out")
                [py "one.txt"; py "two.txt"] example_world) =
  ([py "http://a.com"; py "http://c.com"; py "http://d.com";
    py "http://e.com"; py "http://f.com"],
   [0; 1; 2; 3; 4]).
Proof. vm_compute. reflexivity. Qed.

Example two_files_written :
  dom (files (convert_txt_files_from_directory (collaborators := example_collaborators)
                (py "in") (py ".txt") (py "out") [py "one.txt"; py "two.txt"]
                example_world)) =
  {[ py "in/one.txt"; py "in/two.txt"; py "out/one.json"; py "out/two.json" ]}.
Proof. vm_compute. reflexivity. Qed.

(** * Further properties of the code *)

(** ** Which lines are field lines *)

Lemma length_split_tabs s : length (split TAB s) = S (count_tabs s).
Proof.
  unfold count_tabs. induction s as [|c s IH]; [done|].
  simpl. rewrite filter_cons.
  destruct (N.eqb_spec c TAB) as [->|Hne].
  - rewrite decide_True by done. simpl. by rewrite IH.
  - rewrite decide_False by done.
    destruct (split TAB s) as [|piece pieces] eqn:Hs; [by destruct (split_not_nil TAB s)|].
    simpl in *. done.
Qed.

Lemma split_no_tab s : TAB ∉ s → split TAB s = [s].
Proof.
  induction s as [|c s IH]; [done|].
  intros Hc. apply not_elem_of_cons in Hc as [Hne Hs].
  simpl. destruct (N.eqb_spec c TAB) as [->|_]; [done|].
  by rewrite IH.
Qed.

Lemma split_one_tab a b : TAB ∉ a → TAB ∉ b → split TAB (a ++ TAB :: b) = [a; b].
Proof.
  intros Ha Hb. induction a as [|c a IH]; simpl.
  - by rewrite split_no_tab.
  - apply not_elem_of_cons in Ha as [Hne Ha].
    destruct (N.eqb_spec c TAB) as [->|_]; [done|].
    by rewrite IH.
Qed.

(** X1: [process_txt_file_line] returns [True] exactly for the lines whose
    stripped form holds one tab character; with no tab or with several the
    line counts as a boundary. *)
Theorem field_line_iff_one_tab file_line d out :
  (process_txt_file_line file_line d out).1.1 =
    bool_decide (count_tabs (strip file_line) = 1%nat).
Proof.
  rewrite process_txt_file_line_continues. unfold two_parts.
  rewrite length_split_tabs. apply bool_decide_ext. lia.
Qed.

(** ** Well-formed field lines *)

Lemma rstrip_app_keep s t : rstrip t ≠ [] → rstrip (s ++ t) = s ++ rstrip t.
Proof.
  intros Ht. unfold rstrip in *. rewrite reverse_app, lstrip_app_keep.
  - by rewrite reverse_app, reverse_involutive.
  - intros Hnil. apply Ht. by rewrite Hnil.
Qed.

Lemma lstrip_keep c s : isspace c = false → lstrip (c :: s) = c :: s.
Proof. intros Hc. simpl. by rewrite Hc. Qed.

(** The stripped form of [tag<TAB>content<LF>] for a tag that starts with
    no whitespace and a content, not empty, that ends with none. *)
Lemma strip_field_line c tag content :
  isspace c = false →
  content ≠ [] →
  rstrip content = content →
  strip ((c :: tag) ++ TAB :: content ++ [LF]) = (c :: tag) ++ TAB :: content.
Proof.
  intros Hc Hne Hr. unfold strip.
  rewrite <- app_comm_cons, lstrip_keep by done.
  rewrite app_comm_cons.
  replace ((c :: tag) ++ TAB :: content ++ [LF])
    with (((c :: tag) ++ TAB :: content) ++ [LF]) by (by rewrite <- app_assoc).
  rewrite rstrip_app_space by done.
  replace ((c :: tag) ++ TAB :: content)
    with (((c :: tag) ++ [TAB]) ++ content) by (by rewrite <- app_assoc).
  rewrite rstrip_app_keep by (by rewrite Hr). by rewrite Hr.
Qed.

(** X2: a line [P<TAB>content<LF>], [T...], [Q...] or [L...] whose content
    is not empty, holds no tab and does not end in whitespace is a field
    line with exactly that content: ['P'] and ['T'] overwrite the url and
    the timestamp, ['Q'] and ['L'] append to the phrases and the links.
    Whitespace at the start of the content is part of the content. *)
Theorem well_formed_field_lines content d out :
  content ≠ [] →
  TAB ∉ content →
  rstrip content = content →
  process_txt_file_line (py "P" ++ TAB :: content ++ [LF]) d out =
    (true, {| tracker_P := content; tracker_T := tracker_T d;
              tracker_Q := tracker_Q d; tracker_L := tracker_L d |}, out)
  ∧ process_txt_file_line (py "T" ++ TAB :: content ++ [LF]) d out =
      (true, {| tracker_P := tracker_P d; tracker_T := content;
                tracker_Q := tracker_Q d; tracker_L := tracker_L d |}, out)
  ∧ process_txt_file_line (py "Q" ++ TAB :: content ++ [LF]) d out =
      (true, {| tracker_P := tracker_P d; tracker_T := tracker_T d;
                tracker_Q := tracker_Q d ++ [content]; tracker_L := tracker_L d |}, out)
  ∧ process_txt_file_line (py "L" ++ TAB :: content ++ [LF]) d out =
      (true, {| tracker_P := tracker_P d; tracker_T := tracker_T d;
                tracker_Q := tracker_Q d; tracker_L := tracker_L d ++ [content] |}, out).
Proof.
  intros Hne Htab Hr.
  assert (∀ c, isspace c = false → c ≠ TAB →
            parts ([c] ++ TAB :: content ++ [LF]) = Some ([c], content)) as Hparts.
  { intros c Hc Hct. unfold parts.
    rewrite (strip_field_line c [] content Hc Hne Hr).
    rewrite split_one_tab; [done| |done].
    rewrite elem_of_cons, elem_of_nil. intros [?|[]]. by apply Hct. }
  repeat split.
  - rewrite (process_txt_file_line_parts _ (py "P") content) by (by apply Hparts). done.
  - rewrite (process_txt_file_line_parts _ (py "T") content) by (by apply Hparts). done.
  - rewrite (process_txt_file_line_parts _ (py "Q") content) by (by apply Hparts). done.
  - rewrite (process_txt_file_line_parts _ (py "L") content) by (by apply Hparts). done.
Qed.

Lemma elem_of_strip c s : c ∈ strip s → c ∈ s.
Proof.
  destruct (strip_decompose s) as (leading & trailing & Hs & _).
  intros Hc. rewrite Hs, !elem_of_app. auto.
Qed.

(** X3: a tag followed by a tab and by nothing but whitespace is not a
    field line with an empty content.  The tab goes with the trailing
    whitespace, one part is left, and the line counts as a boundary: the
    function returns [False] and the tracker is as before. *)
Theorem empty_content_is_boundary tag ws d out :
  TAB ∉ tag →
  forallb isspace ws = true →
  process_txt_file_line (tag ++ TAB :: ws) d out = (false, d, out).
Proof.
  intros Htag Hws. apply process_txt_file_line_no_parts. unfold parts.
  assert (strip (tag ++ TAB :: ws) = strip tag) as ->.
  { apply (strip_app_space [] tag (TAB :: ws)); [done|]. simpl. by rewrite Hws. }
  rewrite split_no_tab; [done|].
  intros Hc. by apply Htag, elem_of_strip.
Qed.

(** ** Lines with a tag that is not recognised *)

Lemma process_txt_file_line_unrecognised file_line d out :
  unrecognised file_line = true →
  process_txt_file_line file_line d out = (true, d, out ++ [invalid_line_message file_line]).
Proof.
  unfold unrecognised, in_list.
  destruct (parts file_line) as [[tag content]|] eqn:Hp; [|done].
  intros Hin%negb_true_iff%bool_decide_eq_false.
  rewrite (process_txt_file_line_parts _ _ _ _ _ Hp).
  rewrite !elem_of_cons, elem_of_nil in Hin.
  repeat (case_decide; [tauto|]). done.
Qed.

(** X4: lines with two parts and a tag other than ['P'], ['T'], ['Q'] and
    ['L'] leave the document, the tracker and the counter of the loop as
    they are; each prints one message, which holds the stripped line. *)
Theorem unrecognised_lines_only_print file_lines st :
  Forall (fun file_line => unrecognised file_line = true) file_lines →
  for_file_line_in (Yield <$> file_lines) st =
    {| St.output_json_file_data := St.output_json_file_data st;
       St.individual_meme_data_dict := St.individual_meme_data_dict st;
       St.meme_record_id := St.meme_record_id st;
       St.printed := St.printed st ++ (invalid_line_message <$> file_lines) |}.
Proof.
  intros Hall. revert st.
  induction Hall as [|file_line file_lines Hl Hall IH]; intros st.
  - simpl. rewrite app_nil_r. by destruct st.
  - simpl. rewrite (process_txt_file_line_unrecognised _ _ _ Hl). simpl.
    rewrite IH. simpl. by rewrite <- app_assoc.
Qed.

(** ** The counter and the document of the loop *)

Lemma length_records_completed txt_file d id :
  length (records_completed txt_file d id) = boundaries_read txt_file.
Proof.
  revert d id. induction txt_file as [|[file_line|] txt_file IH]; intros d id; try done.
  simpl. pose proof (process_txt_file_line_continues file_line d []) as Hc.
  destruct (process_txt_file_line file_line d []) as [[continues d'] out'].
  simpl in Hc. subst continues. destruct (two_parts file_line); simpl; by rewrite IH.
Qed.

Lemma store_size_le data records :
  (size (store data records) ≤ size data + length records)%nat.
Proof.
  induction records as [|r records IH] using rev_ind; [simpl; lia|].
  rewrite store_snoc, length_app. simpl.
  destruct (store data records !! url r) eqn:Hr.
  - rewrite map_size_insert_Some by eauto. lia.
  - rewrite map_size_insert_None by done. lia.
Qed.

(** X5: the counter moves on by the number of the boundary lines read, those
    after a failing read not counted, and the document gains at most that
    many keys. *)
Theorem counter_counts_boundaries txt_file st :
  St.meme_record_id (for_file_line_in txt_file st) =
    St.meme_record_id st + Z.of_nat (boundaries_read txt_file)
  ∧ (size (St.output_json_file_data (for_file_line_in txt_file st)) ≤
       size (St.output_json_file_data st) + boundaries_read txt_file)%nat.
Proof.
  destruct (for_file_line_in_records txt_file st) as [Hd Hi].
  rewrite Hd, Hi, <- (length_records_completed txt_file
                        (St.individual_meme_data_dict st) (St.meme_record_id st)).
  split; [done|apply store_size_le].
Qed.

Lemma store_empty_elem_of records u r :
  store ∅ records !! u = Some r → r ∈ records ∧ url r = u.
Proof.
  rewrite store_lookup, lookup_empty.
  destruct (last (filter (fun r => url r = u) records)) as [r'|] eqn:Hl; [|done].
  intros [= ->]. apply last_Some in Hl as [l' Hl].
  assert (r ∈ filter (fun r => url r = u) records) as Hin.
  { rewrite Hl, elem_of_app, elem_of_cons. auto. }
  apply list_elem_of_filter in Hin as [? ?]. done.
Qed.

Lemma records_completed_id_range txt_file d id r :
  r ∈ records_completed txt_file d id →
  id ≤ id_num r < id + Z.of_nat (length (records_completed txt_file d id)).
Proof.
  intros Hr. apply (list_elem_of_fmap_2 id_num) in Hr.
  rewrite records_completed_ids in Hr.
  apply list_elem_of_fmap in Hr as (i & -> & Hi).
  apply elem_of_seq in Hi. lia.
Qed.

Lemma records_completed_id_inj txt_file d id r1 r2 :
  r1 ∈ records_completed txt_file d id →
  r2 ∈ records_completed txt_file d id →
  id_num r1 = id_num r2 → r1 = r2.
Proof.
  intros [i1 H1]%list_elem_of_lookup [i2 H2]%list_elem_of_lookup Heq.
  assert (∀ i r, records_completed txt_file d id !! i = Some r →
                 id_num r = id + Z.of_nat i) as Hat.
  { intros i r Hi.
    assert ((id_num <$> records_completed txt_file d id) !! i = Some (id_num r)) as Hm
      by (by rewrite list_lookup_fmap, Hi).
    rewrite records_completed_ids, list_lookup_fmap in Hm.
    destruct (seq 0 _ !! i) as [j|] eqn:Hj; [|done].
    apply lookup_seq in Hj as [-> _]. simpl in Hm. by injection Hm as <-. }
  apply Hat in H1 as Hi1. apply Hat in H2 as Hi2.
  assert (i1 = i2) as -> by lia. congruence.
Qed.

(** X6: in the document of a file, every record is stored under its own
    url, its id lies between the counter given and the counter returned,
    and two records under different urls have different ids. *)
Theorem document_records txt_file id out :
  let st := for_file_line_in txt_file (initial_state id out) in
  (∀ u r, St.output_json_file_data st !! u = Some r →
          url r = u ∧ id ≤ id_num r < St.meme_record_id st)
  ∧ (∀ u1 u2 r1 r2,
       St.output_json_file_data st !! u1 = Some r1 →
       St.output_json_file_data st !! u2 = Some r2 →
       id_num r1 = id_num r2 → u1 = u2).
Proof.
  cbv zeta.
  destruct (for_file_line_in_records txt_file (initial_state id out)) as [Hd Hi].
  simpl in Hd, Hi. rewrite Hd, Hi. split.
  - intros u r [Hr Hu]%store_empty_elem_of. split; [done|].
    by apply records_completed_id_range.
  - intros u1 u2 r1 r2 [Hr1 <-]%store_empty_elem_of [Hr2 <-]%store_empty_elem_of Heq.
    by rewrite (records_completed_id_inj _ _ _ _ _ Hr1 Hr2 Heq).
Qed.

(** ** A file cut after a boundary line *)

Lemma store_union data records : store data records = store ∅ records ∪ data.
Proof.
  induction records as [|r records IH] using rev_ind.
  - simpl. by rewrite (left_id_L ∅ (∪)).
  - rewrite !store_snoc, IH. by rewrite insert_union_l.
Qed.

Lemma for_file_line_in_printed_data txt_file st out :
  let st' := for_file_line_in txt_file st in
  let st'' := for_file_line_in txt_file
                {| St.output_json_file_data := St.output_json_file_data st;
                   St.individual_meme_data_dict := St.individual_meme_data_dict st;
                   St.meme_record_id := St.meme_record_id st;
                   St.printed := out |} in
  St.output_json_file_data st'' = St.output_json_file_data st'
  ∧ St.meme_record_id st'' = St.meme_record_id st'.
Proof.
  cbv zeta.
  destruct (for_file_line_in_records txt_file st) as [Hd Hi].
  destruct (for_file_line_in_records txt_file
              {| St.output_json_file_data := St.output_json_file_data st;
                 St.individual_meme_data_dict := St.individual_meme_data_dict st;
                 St.meme_record_id := St.meme_record_id st;
                 St.printed := out |}) as [Hd' Hi'].
  simpl in Hd', Hi'. by rewrite Hd, Hi, Hd', Hi'.
Qed.

Lemma for_file_line_in_ends_in_boundary (file_lines : list str) boundary st :
  two_parts boundary = false →
  St.individual_meme_data_dict
    (for_file_line_in (Yield <$> (file_lines ++ [boundary])) st) =
    construct_meme_data_tracker_dict.
Proof.
  intros Hb. rewrite fmap_app, for_file_line_in_app.
  rewrite decide_False by apply not_elem_of_yields.
  simpl fmap. by rewrite for_file_line_in_yield, Hb.
Qed.

(** X7: a file cut in two after a boundary line, the second part converted
    with the counter that the first returned, gives the counter of the
    whole file, and the document of the whole file is the document of the
    second part, completed by the records of the first under the urls that
    the second does not hold. *)
Theorem cut_after_boundary (file_lines : list str) boundary txt_file id out out' :
  two_parts boundary = false →
  let first := Yield <$> (file_lines ++ [boundary]) in
  let st := for_file_line_in (first ++ txt_file) (initial_state id out) in
  let st1 := for_file_line_in first (initial_state id out) in
  let st2 := for_file_line_in txt_file (initial_state (St.meme_record_id st1) out') in
  St.meme_record_id st = St.meme_record_id st2
  ∧ St.output_json_file_data st =
      St.output_json_file_data st2 ∪ St.output_json_file_data st1.
Proof.
  intros Hb. cbv zeta.
  rewrite for_file_line_in_app, decide_False by apply not_elem_of_yields.
  pose proof (for_file_line_in_ends_in_boundary file_lines boundary
                (initial_state id out) Hb) as Htr.
  set (st1 := for_file_line_in (Yield <$> (file_lines ++ [boundary]))
                (initial_state id out)) in *.
  destruct (for_file_line_in_records txt_file st1) as [Hd Hi].
  destruct (for_file_line_in_records txt_file
              (initial_state (St.meme_record_id st1) out')) as [Hd' Hi'].
  simpl in Hd', Hi'. rewrite Hd, Hi, Hd', Hi', Htr.
  split; [done|apply store_union].
Qed.

(** ** The name of the output file, again *)

Lemma replace_from_no_occurrence old new s :
  (∀ i, (i ≤ length s)%nat → startswith (drop i s) old = false) →
  replace_from old new 0 s = s.
Proof.
  induction s as [|c s IH]; [done|].
  intros Hocc. pose proof (Hocc 0%nat ltac:(simpl; lia)) as H0. rewrite drop_0 in H0.
  rewrite replace_from_cons_no_match by done. f_equal. apply IH.
  intros i Hi. apply (Hocc (S i)). simpl. lia.
Qed.

Lemma occurs_in_false old s :
  occurs_in old s = false →
  ∀ i, (i ≤ length s)%nat → startswith (drop i s) old = false.
Proof.
  unfold occurs_in. intros Hocc i Hi.
  destruct (startswith (drop i s) old) eqn:Hs; [|done].
  rewrite <- Hocc. symmetry. apply existsb_exists. exists i. split; [|done].
  apply in_seq. lia.
Qed.

(** X8: a file name in which the extension does not occur is its own output
    name: nothing is replaced and no [.json] is added. *)
Theorem output_json_file_name_no_occurrence name ext :
  occurs_in ext name = false →
  output_json_file_name name ext = name.
Proof.
  intros Hocc. unfold output_json_file_name, replace.
  destruct ext as [|e ext'] eqn:He.
  - unfold occurs_in in Hocc. simpl in Hocc. done.
  - rewrite <- He in *. apply replace_from_no_occurrence. by apply occurs_in_false.
Qed.

Section FileProperties.
Context {collaborators : Collaborators}.

(** ** What a conversion leaves alone *)

Lemma convert_txt_file_to_json_other_files dir name ext outdir id w file :
  file ≠ file_id (output_path outdir name ext) →
  files (convert_txt_file_to_json dir name ext outdir id w).2 !! file = files w !! file
  ∧ dirs (convert_txt_file_to_json dir name ext outdir id w).2 = dirs w.
Proof.
  intros Hp. unfold output_path in Hp. unfold convert_txt_file_to_json.
  destruct (exist_file (path_join dir name) w); simpl; [|done].
  by rewrite !lookup_insert_ne.
Qed.

(** X9: [convert_txt_file_to_json] changes no file but the one that the
    output path names, and no directory; that holds as well when the input
    file is missing.  A path that names the output file under another
    spelling is not a path of another file. *)
Theorem convert_txt_file_to_json_frame dir name ext outdir id w p :
  file_id p ≠ file_id (output_path outdir name ext) →
  files (convert_txt_file_to_json dir name ext outdir id w).2 !! file_id p =
    files w !! file_id p
  ∧ dirs (convert_txt_file_to_json dir name ext outdir id w).2 = dirs w.
Proof.
  intros Hp. unfold output_path in Hp. unfold convert_txt_file_to_json.
  destruct (exist_file (path_join dir name) w); simpl; [|done].
  by rewrite !lookup_insert_ne.
Qed.

Lemma convert_txt_file_to_json_over_input dir name ext outdir id w :
  exist_file (path_join dir name) w = true →
  file_id (output_path outdir name ext) = file_id (path_join dir name) →
  convert_txt_file_to_json dir name ext outdir id w =
    (id, {| files := <[ file_id (path_join dir name) := json_dump ∅ ]> (files w);
            dirs := dirs w; stdout := stdout w |}).
Proof.
  intros Hexists Hsame. unfold output_path in Hsame.
  rewrite (convert_txt_file_to_json_existing _ _ _ _ _ _ Hexists). cbv zeta.
  unfold open_r, open_w. simpl. rewrite !Hsame.
  rewrite lookup_insert_eq. simpl. by rewrite insert_insert_eq.
Qed.

(** X10: when the output path names the input file, the input is emptied
    by the opening of the output before it is read: whatever the file held,
    no record is completed, the counter comes back unchanged and the file
    is left with the text of the empty document. *)
Theorem output_over_input dir name ext outdir id w :
  exist_file (path_join dir name) w = true →
  file_id (output_path outdir name ext) = file_id (path_join dir name) →
  convert_txt_file_to_json dir name ext outdir id w =
    (id, {| files := <[ file_id (path_join dir name) := json_dump ∅ ]> (files w);
            dirs := dirs w; stdout := stdout w |}).
Proof.
  intros Hexists Hsame. unfold output_path in Hsame.
  rewrite (convert_txt_file_to_json_existing _ _ _ _ _ _ Hexists). cbv zeta.
  unfold open_r, open_w. simpl. rewrite !Hsame.
  rewrite lookup_insert_eq. simpl. by rewrite insert_insert_eq.
Qed.

(** The document and the counter of a conversion do not depend on what has
    been printed before. *)
Lemma convert_txt_file_to_json_same_files dir name ext outdir id w1 w2 :
  same_files w1 w2 →
  (convert_txt_file_to_json dir name ext outdir id w1).1 =
    (convert_txt_file_to_json dir name ext outdir id w2).1
  ∧ same_files (convert_txt_file_to_json dir name ext outdir id w1).2
      (convert_txt_file_to_json dir name ext outdir id w2).2.
Proof.
  intros [Hf Hd]. unfold convert_txt_file_to_json, exist_file. rewrite Hf.
  destruct (bool_decide (is_Some (files w2 !! file_id (path_join dir name)))); simpl.
  - unfold open_r, open_w, same_files, initial_state. simpl. rewrite Hf, Hd.
    set (txt := default [] (_ !! file_id (path_join dir name))).
    destruct (for_file_line_in_printed_data txt (initial_state id (stdout w2)) (stdout w1))
      as [Hdata Hid].
    unfold initial_state in Hdata, Hid. simpl in Hdata, Hid.
    by rewrite Hdata, Hid.
  - done.
Qed.

(** X11: converting a file a second time, with the same counter, returns
    the same counter and leaves every file as the first conversion left it:
    the output file is written again with the same text.  That holds
    whether or not the output path names the input file. *)
Theorem convert_again dir name ext outdir id w txt_file :
  files w !! file_id (path_join dir name) = Some txt_file →
  let r1 := convert_txt_file_to_json dir name ext outdir id w in
  let r2 := convert_txt_file_to_json dir name ext outdir id r1.2 in
  r2.1 = r1.1 ∧ same_files r2.2 r1.2.
Proof.
  intros Hfile. cbv zeta.
  assert (exist_file (path_join dir name) w = true) as Hexists.
  { unfold exist_file. apply bool_decide_eq_true. rewrite Hfile. eauto. }
  destruct (decide (file_id (output_path outdir name ext) = file_id (path_join dir name)))
    as [Hsame|Hne].
  - rewrite (convert_txt_file_to_json_over_input _ _ _ _ _ _ Hexists Hsame). simpl.
    rewrite convert_txt_file_to_json_over_input; [|by unfold exist_file; simpl;
      rewrite lookup_insert_eq|done].
    simpl. split; [done|]. split; [|done]. simpl. by rewrite insert_insert_eq.
  - unfold output_path in Hne.
    rewrite (convert_txt_file_to_json_existing _ _ _ _ _ _ Hexists). cbv zeta.
    set (out_path := path_join outdir (output_json_file_name name ext)) in *.
    assert (open_r (path_join dir name) (open_w out_path w) = txt_file) as Hread.
    { unfold open_r, open_w. simpl. rewrite lookup_insert_ne by done. by rewrite Hfile. }
    rewrite Hread. simpl.
    set (st := for_file_line_in txt_file (initial_state id (stdout w))).
    set (w1 := {| files := <[ file_id out_path :=
                               json_dump (St.output_json_file_data st) ]>
                             (<[ file_id out_path := [] ]> (files w));
                  dirs := dirs w; stdout := St.printed st |}).
    assert (exist_file (path_join dir name) w1 = true) as Hexists1.
    { unfold exist_file. apply bool_decide_eq_true. simpl.
      rewrite !lookup_insert_ne by done. rewrite Hfile. eauto. }
    rewrite (convert_txt_file_to_json_existing _ _ _ _ _ _ Hexists1). cbv zeta.
    fold out_path.
    assert (open_r (path_join dir name) (open_w out_path w1) = txt_file) as Hread1.
    { unfold open_r, open_w. simpl. rewrite !lookup_insert_ne by done. by rewrite Hfile. }
    rewrite Hread1.
    destruct (for_file_line_in_printed_data txt_file (initial_state id (stdout w))
                (stdout w1)) as [Hdata Hid].
    unfold initial_state in Hdata, Hid. simpl in Hdata, Hid.
    unfold initial_state. fold st in Hdata, Hid. simpl.
    rewrite Hdata, Hid. split; [done|]. split; [|done]. simpl.
    by rewrite !insert_insert_eq.
Qed.

End FileProperties.

Section BatchProperties.
Context {collaborators : Collaborators}.

(** ** The loop over the files *)

Lemma for_input_file_name_in_app names1 names2 dir ext outdir id w :
  for_input_file_name_in (names1 ++ names2) dir ext outdir id w =
    for_input_file_name_in names2 dir ext outdir
      (for_input_file_name_in names1 dir ext outdir id w).1
      (for_input_file_name_in names1 dir ext outdir id w).2.
Proof.
  revert id w. induction names1 as [|name names1 IH]; intros id w; [done|].
  simpl. destruct (convert_txt_file_to_json dir name ext outdir id w) as [id' w'].
  apply IH.
Qed.

(** X12: the loop over the files changes no file but those that the output
    paths of its names name, and no directory. *)
Theorem for_input_file_name_in_frame names dir ext outdir id w p :
  Forall (fun name => file_id p ≠ file_id (output_path outdir name ext)) names →
  files (for_input_file_name_in names dir ext outdir id w).2 !! file_id p =
    files w !! file_id p
  ∧ dirs (for_input_file_name_in names dir ext outdir id w).2 = dirs w.
Proof.
  intros Hall. revert id w.
  induction Hall as [|name names Hp Hall IH]; intros id w; [done|].
  simpl.
  destruct (convert_txt_file_to_json_other_files dir name ext outdir id w _ Hp) as [Hf Hd].
  destruct (convert_txt_file_to_json dir name ext outdir id w) as [id' w'].
  simpl in Hf, Hd. destruct (IH id' w') as [Hf' Hd'].
  by rewrite Hf', Hd', Hf, Hd.
Qed.

Lemma for_input_file_name_in_same_files names dir ext outdir id w1 w2 :
  same_files w1 w2 →
  (for_input_file_name_in names dir ext outdir id w1).1 =
    (for_input_file_name_in names dir ext outdir id w2).1
  ∧ same_files (for_input_file_name_in names dir ext outdir id w1).2
      (for_input_file_name_in names dir ext outdir id w2).2.
Proof.
  revert id w1 w2. induction names as [|name names IH]; intros id w1 w2 Hw; [done|].
  simpl.
  destruct (convert_txt_file_to_json_same_files dir name ext outdir id w1 w2 Hw)
    as [Hid Hw'].
  destruct (convert_txt_file_to_json dir name ext outdir id w1) as [id1 w1'].
  destruct (convert_txt_file_to_json dir name ext outdir id w2) as [id2 w2'].
  simpl in Hid, Hw'. subst id2. by apply IH.
Qed.

(** X13: a name in the list whose file is missing when its turn comes is
    passed over: the counter returned and all the files and directories at
    the end are those of the run without that name. *)
Theorem missing_file_skipped names1 missing names2 dir ext outdir id w :
  exist_file (path_join dir missing)
    (for_input_file_name_in names1 dir ext outdir id w).2 = false →
  let r := for_input_file_name_in (names1 ++ missing :: names2) dir ext outdir id w in
  let r' := for_input_file_name_in (names1 ++ names2) dir ext outdir id w in
  r.1 = r'.1 ∧ same_files r.2 r'.2.
Proof.
  intros Hmissing. cbv zeta. rewrite !for_input_file_name_in_app.
  destruct (for_input_file_name_in names1 dir ext outdir id w) as [id1 w1].
  simpl in Hmissing. simpl fst. simpl snd.
  assert (convert_txt_file_to_json dir missing ext outdir id1 w1 =
            (id1, print (py "The path to the given input txt file is invalid. File Path: "
                         ++ path_join dir missing) w1)) as Hskip.
  { unfold convert_txt_file_to_json. by rewrite Hmissing. }
  change (for_input_file_name_in (missing :: names2) dir ext outdir id1 w1)
    with (let '(record_id, w) := convert_txt_file_to_json dir missing ext outdir id1 w1 in
          for_input_file_name_in names2 dir ext outdir record_id w).
  rewrite Hskip. apply for_input_file_name_in_same_files. by split.
Qed.

End BatchProperties.

(** ** The further properties at concrete inputs *)

Lemma well_formed_field_lines_witness :
  let content := py "  hello world" in
  let d := construct_meme_data_tracker_dict in
  content ≠ [] ∧ (TAB ∉ content) ∧ rstrip content = content
  ∧ process_txt_file_line (py "Q" ++ TAB :: content ++ [LF]) d [] =
      (true, {| tracker_P := []; tracker_T := []; tracker_Q := [content];
                tracker_L := [] |}, []).
Proof.
  assert (py "  hello world" ≠ []) as Hne by discriminate.
  assert (TAB ∉ py "  hello world") as Htab
    by (apply (bool_decide_unpack _); vm_compute; exact I).
  assert (rstrip (py "  hello world") = py "  hello world") as Hr
    by (vm_compute; reflexivity).
  split; [exact Hne|]. split; [exact Htab|]. split; [exact Hr|].
  destruct (well_formed_field_lines _ construct_meme_data_tracker_dict [] Hne Htab Hr)
    as (_ & _ & HQ & _).
  exact HQ.
Defined.

Lemma empty_content_is_boundary_witness :
  let d := {| tracker_P := py "http://a.com"; tracker_T := []; tracker_Q := [py "q"];
              tracker_L := [] |} in
  (TAB ∉ py "Q") ∧ forallb isspace [SPACE; LF] = true
  ∧ process_txt_file_line (py "Q" ++ TAB :: [SPACE; LF]) d [] = (false, d, []).
Proof.
  assert (TAB ∉ py "Q") as Htab by (apply (bool_decide_unpack _); vm_compute; exact I).
  assert (forallb isspace [SPACE; LF] = true) as Hws by (vm_compute; reflexivity).
  split; [exact Htab|]. split; [exact Hws|].
  exact (empty_content_is_boundary _ _ _ [] Htab Hws).
Defined.

Lemma unrecognised_lines_only_print_witness :
  let file_lines := [line "X" "y"; line "PP" "z"] in
  let st := initial_state 3 [] in
  Forall (fun file_line => unrecognised file_line = true) file_lines
  ∧ for_file_line_in (Yield <$> file_lines) st =
      {| St.output_json_file_data := ∅;
         St.individual_meme_data_dict := construct_meme_data_tracker_dict;
         St.meme_record_id := 3;
         St.printed := invalid_line_message <$> file_lines |}.
Proof.
  assert (Forall (fun file_line => unrecognised file_line = true)
            [line "X" "y"; line "PP" "z"]) as Hall.
  { repeat (constructor; [vm_compute; reflexivity|]). constructor. }
  split; [exact Hall|].
  exact (unrecognised_lines_only_print _ (initial_state 3 []) Hall).
Defined.

Lemma cut_after_boundary_witness :
  let first := Yield <$> ([line "P" "a"] ++ [blank]) in
  let txt_file := Yield <$> [line "P" "b"; blank] in
  let st := for_file_line_in (first ++ txt_file) (initial_state 0 []) in
  let st1 := for_file_line_in first (initial_state 0 []) in
  let st2 := for_file_line_in txt_file (initial_state (St.meme_record_id st1) []) in
  two_parts blank = false
  ∧ St.meme_record_id st = St.meme_record_id st2
  ∧ St.output_json_file_data st =
      St.output_json_file_data st2 ∪ St.output_json_file_data st1.
Proof.
  assert (two_parts blank = false) as Hb by (vm_compute; reflexivity).
  split; [exact Hb|].
  exact (cut_after_boundary [line "P" "a"] blank (Yield <$> [line "P" "b"; blank])
           0 [] [] Hb).
Defined.

Lemma output_json_file_name_no_occurrence_witness :
  occurs_in (py ".csv") (py "one.txt") = false
  ∧ output_json_file_name (py "one.txt") (py ".csv") = py "one.txt".
Proof.
  assert (occurs_in (py ".csv") (py "one.txt") = false) as Hocc
    by (vm_compute; reflexivity).
  split; [exact Hocc|].
  exact (output_json_file_name_no_occurrence _ _ Hocc).
Defined.

Lemma convert_txt_file_to_json_frame_witness :
  let r := convert_txt_file_to_json (collaborators := example_collaborators)
             (py "in") (py "one.txt") (py ".txt") (py "out") 0 example_world in
  example_file_id (py "./in/two.txt") ≠
    example_file_id (output_path (py "out") (py "one.txt") (py ".txt"))
  ∧ files r.2 !! example_file_id (py "./in/two.txt") =
      files example_world !! example_file_id (py "./in/two.txt")
  ∧ dirs r.2 = dirs example_world.
Proof.
  assert (example_file_id (py "./in/two.txt") ≠
            example_file_id (output_path (py "out") (py "one.txt") (py ".txt"))) as Hp
    by (vm_compute; discriminate).
  split; [exact Hp|].
  exact (convert_txt_file_to_json_frame (collaborators := example_collaborators)
           (py "in") (py "one.txt") (py ".txt") (py "out") 0 example_world
           (py "./in/two.txt") Hp).
Defined.

Lemma output_over_input_witness :
  exist_file (collaborators := example_collaborators)
    (path_join (py "in") (py "one.txt")) example_world = true
  ∧ output_path (py "./in") (py "one.txt") (py ".csv") ≠ path_join (py "in") (py "one.txt")
  ∧ example_file_id (output_path (py "./in") (py "one.txt") (py ".csv")) =
      example_file_id (path_join (py "in") (py "one.txt"))
  ∧ convert_txt_file_to_json (collaborators := example_collaborators)
      (py "in") (py "one.txt") (py ".csv") (py "./in") 4 example_world =
    (4, {| files := <[ example_file_id (path_join (py "in") (py "one.txt")) :=
                         @json_dump example_collaborators ∅ ]>
                      (files example_world);
           dirs := dirs example_world; stdout := stdout example_world |}).
Proof.
  assert (exist_file (collaborators := example_collaborators)
            (path_join (py "in") (py "one.txt")) example_world = true) as He
    by (vm_compute; reflexivity).
  assert (example_file_id (output_path (py "./in") (py "one.txt") (py ".csv")) =
            example_file_id (path_join (py "in") (py "one.txt"))) as Hs
    by (vm_compute; reflexivity).
  split; [exact He|]. split; [vm_compute; discriminate|]. split; [exact Hs|].
  exact (output_over_input (collaborators := example_collaborators)
           (py "in") (py "one.txt") (py ".csv") (py "./in") 4 example_world He Hs).
Defined.

Lemma convert_again_witness :
  let r1 := convert_txt_file_to_json (collaborators := example_collaborators)
              (py "in") (py "one.txt") (py ".txt") (py "out") 0 example_world in
  let r2 := convert_txt_file_to_json (collaborators := example_collaborators)
              (py "in") (py "one.txt") (py ".txt") (py "out") 0 r1.2 in
  files example_world !! example_file_id (path_join (py "in") (py "one.txt")) =
    Some example_one_lines
  ∧ r2.1 = r1.1 ∧ same_files r2.2 r1.2.
Proof.
  assert (files example_world !! example_file_id (path_join (py "in") (py "one.txt")) =
            Some example_one_lines) as Hf by (vm_compute; reflexivity).
  split; [exact Hf|].
  exact (convert_again (collaborators := example_collaborators)
           (py "in") (py "one.txt") (py ".txt") (py "out") 0 example_world _ Hf).
Defined.

Lemma for_input_file_name_in_frame_witness :
  let names := [py "one.txt"; py "two.txt"] in
  let r := for_input_file_name_in (collaborators := example_collaborators)
             names (py "in") (py ".txt") (py "out") 0 example_world in
  Forall (fun name => example_file_id (py "in/one.txt") ≠
                        example_file_id (output_path (py "out") name (py ".txt"))) names
  ∧ files r.2 !! example_file_id (py "in/one.txt") =
      files example_world !! example_file_id (py "in/one.txt")
  ∧ dirs r.2 = dirs example_world.
Proof.
  assert (Forall (fun name => example_file_id (py "in/one.txt") ≠
                                example_file_id (output_path (py "out") name (py ".txt")))
            [py "one.txt"; py "two.txt"]) as Hall.
  { repeat (constructor; [vm_compute; discriminate|]). constructor. }
  split; [exact Hall|].
  exact (for_input_file_name_in_frame (collaborators := example_collaborators)
           _ (py "in") (py ".txt") (py "out") 0 example_world (py "in/one.txt") Hall).
Defined.

Lemma missing_file_skipped_witness :
  let run names :=
    for_input_file_name_in (collaborators := example_collaborators)
      names (py "in") (py ".txt") (py "out") 0 example_world in
  exist_file (collaborators := example_collaborators)
    (path_join (py "in") (py "three.txt")) (run [py "one.txt"]).2 = false
  ∧ (run ([py "one.txt"] ++ py "three.txt" :: [py "two.txt"])).1 =
      (run ([py "one.txt"] ++ [py "two.txt"])).1
  ∧ same_files (run ([py "one.txt"] ++ py "three.txt" :: [py "two.txt"])).2
      (run ([py "one.txt"] ++ [py "two.txt"])).2.
Proof.
  assert (exist_file (collaborators := example_collaborators)
            (path_join (py "in") (py "three.txt"))
            (for_input_file_name_in (collaborators := example_collaborators)
               [py "one.txt"] (py "in") (py ".txt") (py "out") 0 example_world).2 = false)
    as Hm by (vm_compute; reflexivity).
  split; [exact Hm|].
  exact (missing_file_skipped (collaborators := example_collaborators)
           [py "one.txt"] (py "three.txt") [py "two.txt"]
           (py "in") (py ".txt") (py "out") 0 example_world Hm).
Defined.
